(** * Verification model of the avalanche build pipeline, the service
    [SharedMap] and summit's [profile::remote::create].

    Sources:
    - src/crates/avalanche/src/build.rs  (pipeline, directory helpers,
      log compression, artifact scan)
    - src/crates/service/src/sync.rs      ([SharedMap])
    - src/crates/summit/src/profile/remote.rs ([create]) *)

From Stdlib Require Import ZArith Ascii String.
From stdpp Require Import base gmap list strings pretty.

Open Scope string_scope.

(* ------------------------------------------------------------------ *)
(** ** Filesystem model *)

(** A path is the list of its components below the root ([Path::components]
    of an absolute path, with repeated separators dropped). *)
Abbreviation path := (list string).

(** A filesystem node: a directory, or a regular file with its content. *)
Inductive node :=
| Dir
| File (content : string).

Global Instance node_eq_dec : EqDecision node.
Proof. solve_decision. Defined.

(** Filesystem operations that can fail for environmental reasons
    (permissions, I/O errors, full disk). *)
Inductive io_op :=
| OpCreateDir
| OpRemove
| OpOpen
| OpCreate
| OpWrite
| OpReadDir
| OpClone.

Global Instance io_op_eq_dec : EqDecision io_op.
Proof. solve_decision. Defined.

(** [http::Uri]: its [Display] text and its [path()]. *)
Record Uri := mkUri {
  uri_text : string;
  uri_path : string
}.

Global Instance Uri_eq_dec : EqDecision Uri.
Proof. solve_decision. Defined.

(** External commands spawned by the pipeline. *)
Inductive cmd :=
| GitMirror (uri : Uri) (dest : path)
| GitRemoteUpdate (dest : path)
| GitCheckoutWorktree (mirror worktree : path) (commit_ref : string)
| GitRemoveWorktree (mirror worktree : path)
| Sudo (args : list string) (cwd : path) (log : path).

(** The world the pipeline runs in: the filesystem, the operations that
    fail on given paths, and the commands spawned so far. *)
Record world := mkWorld {
  w_fs : gmap path node;
  w_faults : list (io_op * path);
  w_spawned : list cmd
}.

Definition set_fs (w : world) (fs : gmap path node) : world :=
  mkWorld fs (w_faults w) (w_spawned w).

Definition faulty (w : world) (op : io_op) (p : path) : bool :=
  bool_decide ((op, p) ∈ w_faults w).

(** The node at a path; the root is always a directory. *)
Definition lookup_node (w : world) (p : path) : option node :=
  match p with [] => Some Dir | _ => w_fs w !! p end.

(** [Path::exists]. *)
Definition exists_path (w : world) (p : path) : bool :=
  match lookup_node w p with Some _ => true | None => false end.

Definition is_dir (w : world) (p : path) : bool :=
  match lookup_node w p with Some Dir => true | _ => false end.

(** [Path::starts_with]: component-wise prefix. *)
Fixpoint starts_with_path (p q : path) : bool :=
  match p, q with
  | [], _ => true
  | a :: p', b :: q' => bool_decide (a = b) && starts_with_path p' q'
  | _ :: _, [] => false
  end.

(** [Path::parent] of a non-root path. *)
Definition parent (p : path) : option path :=
  match p with [] => None | _ => Some (removelast p) end.

(** [Path::join] of a relative component string: split on '/', dropping
    empty components; a string with a leading '/' replaces the path. *)
Fixpoint split_slash (cur : string) (s : string) : list string :=
  match s with
  | EmptyString => [cur]
  | String c s' =>
      if bool_decide (c = "/"%char) then cur :: split_slash EmptyString s'
      else split_slash (cur +:+ String c EmptyString) s'
  end.

Definition split_components (s : string) : list string :=
  filter (fun c => c <> EmptyString) (split_slash EmptyString s).

Definition join (p : path) (s : string) : path :=
  match s with
  | String c _ =>
      if bool_decide (c = "/"%char) then split_components s else p ++ split_components s
  | EmptyString => p ++ split_components s
  end.

(* ------------------------------------------------------------------ *)
(** ** Results and the pipeline monad *)

(** [eyre::Report]: the chain of context messages, outermost first. *)
Abbreviation Report := (list string).

Inductive result (A : Type) :=
| Ok (a : A)
| Err (e : Report).
Arguments Ok {A} a.
Arguments Err {A} e.

(** Async code over the world; on error the effects performed so far stay. *)
Definition M (A : Type) := world -> result A * world.

Definition ret {A} (a : A) : M A := fun w => (Ok a, w).

Definition fail {A} (e : Report) : M A := fun w => (Err e, w).

Definition bind {A B} (m : M A) (k : A -> M B) : M B :=
  fun w => match m w with
           | (Ok a, w') => k a w'
           | (Err e, w') => (Err e, w')
           end.

(** [let? x := m in k] is Rust's [let x = m?; k]. *)
Notation "'let?' x ':=' m 'in' k" := (bind m (fun x => k))
  (at level 200, x name, m at level 100, k at level 200).

(** [.context(msg)]. *)
Definition context {A} (msg : string) (m : M A) : M A :=
  fun w => match m w with
           | (Err e, w') => (Err (msg :: e), w')
           | r => r
           end.

Definition get : M world := fun w => (Ok w, w).

Definition put_fs (fs : gmap path node) : M unit :=
  fun w => (Ok tt, set_fs w fs).

(* ------------------------------------------------------------------ *)
(** ** [tokio::fs] primitives *)

(** Prefixes [take 1 p], ..., [p]: the directories [create_dir_all] makes. *)
Definition ancestors (p : path) : list path :=
  map (fun i => take i p) (seq 1 (length p)).

Definition create_dir (p : path) : M unit :=
  fun w =>
    match lookup_node w p with
    | Some Dir => (Ok tt, w)
    | Some (File _) => (Err ["File exists"], w)
    | None =>
        if faulty w OpCreateDir p then (Err ["Permission denied"], w)
        else (Ok tt, set_fs w (<[p := Dir]> (w_fs w)))
    end.

Fixpoint create_each (ps : list path) : M unit :=
  match ps with
  | [] => ret tt
  | p :: ps' => let? _ := create_dir p in create_each ps'
  end.

(** [fs::create_dir_all]. *)
Definition create_dir_all (p : path) : M unit := create_each (ancestors p).

(** [fs::remove_dir_all]: fails on a regular file. *)
Definition remove_dir_all (p : path) : M unit :=
  fun w =>
    match lookup_node w p with
    | None => (Err ["No such file or directory"], w)
    | Some (File _) => (Err ["Not a directory"], w)
    | Some Dir =>
        if faulty w OpRemove p then (Err ["Permission denied"], w)
        else (Ok tt, set_fs w
                (filter (fun kv : path * node => starts_with_path p kv.1 = false)
                        (w_fs w)))
    end.

(* ------------------------------------------------------------------ *)
(** ** Directory helpers (build.rs, lines 137-147) *)

Definition ensure_dir_exists (p : path) : M unit := create_dir_all p.

Definition recreate_dir (p : path) : M unit :=
  let? w := get in
  let? _ := (if exists_path w p then remove_dir_all p else ret tt) in
  create_dir_all p.

(** [File::create]: creates or truncates a regular file. *)
Definition create_file (p : path) : M unit :=
  fun w =>
    match lookup_node w p, parent p with
    | Some Dir, _ => (Err ["Is a directory"], w)
    | _, None => (Err ["Is a directory"], w)
    | _, Some q =>
        if negb (is_dir w q) then (Err ["No such file or directory"], w)
        else if faulty w OpCreate p then (Err ["Permission denied"], w)
        else (Ok tt, set_fs w (<[p := File EmptyString]> (w_fs w)))
    end.

(** [File::try_clone] on the open file [p]: duplicates its descriptor,
    which can fail (for instance when the process is out of descriptors). *)
Definition try_clone (p : path) : M unit :=
  fun w => if faulty w OpClone p then (Err ["Too many open files"], w) else (Ok tt, w).

(** [File::open] for reading. *)
Definition open_file (p : path) : M unit :=
  fun w =>
    match lookup_node w p with
    | None => (Err ["No such file or directory"], w)
    | Some _ =>
        if faulty w OpOpen p then (Err ["Permission denied"], w) else (Ok tt, w)
    end.

(** Reading the whole content of an opened file ([io::copy] from it). *)
Definition read_file (p : path) : M string :=
  fun w =>
    match lookup_node w p with
    | Some (File c) => (Ok c, w)
    | Some Dir => (Err ["Is a directory"], w)
    | None => (Err ["No such file or directory"], w)
    end.

(** Writing the whole content of a created file. *)
Definition write_file (p : path) (c : string) : M unit :=
  fun w =>
    match lookup_node w p with
    | Some (File _) =>
        if faulty w OpWrite p then (Err ["No space left on device"], w)
        else (Ok tt, set_fs w (<[p := File c]> (w_fs w)))
    | _ => (Err ["Bad file descriptor"], w)
    end.

(** [fs::remove_file]. *)
Definition remove_file (p : path) : M unit :=
  fun w =>
    match lookup_node w p with
    | Some (File _) =>
        if faulty w OpRemove p then (Err ["Permission denied"], w)
        else (Ok tt, set_fs w (delete p (w_fs w)))
    | Some Dir => (Err ["Is a directory"], w)
    | None => (Err ["No such file or directory"], w)
    end.

(** [fs::write]. *)
Definition fs_write (p : path) (c : string) : M unit :=
  let? _ := create_file p in write_file p c.

(** The path below [d] of a key of the filesystem. *)
Fixpoint strip_path_prefix (d k : path) : option path :=
  match d, k with
  | [], _ => Some k
  | a :: d', b :: k' => if bool_decide (a = b) then strip_path_prefix d' k' else None
  | _ :: _, [] => None
  end.

(** Names of the entries directly inside [d]. *)
Definition dir_entries (w : world) (d : path) : list string :=
  omap (fun kv : path * node =>
          match strip_path_prefix d kv.1 with Some [name] => Some name | _ => None end)
       (map_to_list (w_fs w)).

(** [fs::read_dir]. *)
Definition read_dir (d : path) : M (list string) :=
  fun w =>
    match lookup_node w d with
    | Some Dir =>
        if faulty w OpReadDir d then (Err ["Permission denied"], w)
        else (Ok (dir_entries w d), w)
    | Some (File _) => (Err ["Not a directory"], w)
    | None => (Err ["No such file or directory"], w)
    end.

(** [Path::display]. *)
Definition path_to_string (p : path) : string :=
  match p with
  | [] => "/"
  | _ => foldr (fun c acc => "/" +:+ c +:+ acc) EmptyString p
  end.

(** [format!("{}.gz", file.display())] as a path. *)
Definition gz_path (p : path) : path :=
  match last p with
  | Some l => removelast p ++ [l +:+ ".gz"]
  | None => [".gz"]
  end.

(* ------------------------------------------------------------------ *)
(** ** Data model (service crate types used by build.rs) *)

(** [collectable::Kind]. *)
Inductive Kind :=
| Unknown
| BinaryManifest
| JsonManifest
| Log
| Package.

Global Instance Kind_eq_dec : EqDecision Kind.
Proof. solve_decision. Defined.

(** [Collectable]. *)
Record Collectable := mkCollectable {
  kind : Kind;
  c_uri : Uri;
  sha256sum : string
}.

(** [Remote]: a package index; [priority] is a [u64]. *)
Record Remote := mkRemote {
  index_uri : Uri;
  name : string;
  priority : N
}.

(** [PackageBuild]; [build_id] is a [u64]. *)
Record PackageBuild := mkPackageBuild {
  build_id : N;
  uri : string;
  commit_ref : string;
  relative_path : string;
  remotes : list Remote
}.

(** [State]: the directories of the worker. *)
Record State := mkState {
  cache_dir : path;
  state_dir : path;
  root : path
}.

(** [Config]: the advertised host address. *)
Record Config := mkConfig {
  host_address : Uri
}.

(** The outside of the pipeline: URI parsing of the [http] crate, the
    spawned commands, the gzip encoder and the SHA-256 digest. *)
Record Env := mkEnv {
  parse_uri : string -> option Uri;
  run_cmd : cmd -> gmap path node -> bool * gmap path node;
  gzip : string -> string;
  sha256_hex : string -> string
}.

(** Modelled from the spec: [service::process::execute] and the four
    [service::git] operations (mirror, remote_update, checkout_worktree,
    remove_worktree), whose code is not in src/.  Each spawns one external
    command; the command is recorded, may change the filesystem, and its
    failure (spawn error or non-zero exit) is returned as an error. *)
Definition spawn (env : Env) (c : cmd) : M unit :=
  fun w =>
    let '(ok, fs') := run_cmd env c (w_fs w) in
    let w' := mkWorld fs' (w_faults w) (w_spawned w ++ [c]) in
    if ok then (Ok tt, w') else (Err ["command failed"], w').

Definition git_mirror (env : Env) (u : Uri) (dest : path) : M unit :=
  spawn env (GitMirror u dest).

Definition git_remote_update (env : Env) (dest : path) : M unit :=
  spawn env (GitRemoteUpdate dest).

Definition git_checkout_worktree (env : Env) (mirror worktree : path) (r : string) : M unit :=
  spawn env (GitCheckoutWorktree mirror worktree r).

Definition git_remove_worktree (env : Env) (mirror worktree : path) : M unit :=
  spawn env (GitRemoveWorktree mirror worktree).

(* ------------------------------------------------------------------ *)
(** ** Strings *)

Definition nl : string := String (ascii_of_nat 10) EmptyString.
Definition quote : string := String (ascii_of_nat 34) EmptyString.

(** [str::strip_prefix("/")]. *)
Definition strip_slash (s : string) : option string :=
  match s with
  | String c rest => if bool_decide (c = "/"%char) then Some rest else None
  | EmptyString => None
  end.

Fixpoint prefixb (a b : list ascii) : bool :=
  match a, b with
  | [], _ => true
  | x :: a', y :: b' => bool_decide (x = y) && prefixb a' b'
  | _ :: _, [] => false
  end.

(** [str::ends_with]. *)
Definition ends_with (s suffix : string) : bool :=
  prefixb (rev (list_ascii_of_string suffix)) (rev (list_ascii_of_string s)).

Definition byte_in (lo hi : nat) (c : ascii) : bool :=
  Nat.leb lo (nat_of_ascii c) && Nat.leb (nat_of_ascii c) hi.

(** Well-formed UTF-8: [OsStr::to_str] succeeds exactly on these. *)
Fixpoint utf8_valid (s : string) : bool :=
  match s with
  | EmptyString => true
  | String c s1 =>
      if Nat.leb (nat_of_ascii c) 127 then utf8_valid s1
      else if byte_in 194 223 c then
        match s1 with
        | String c1 s2 => byte_in 128 191 c1 && utf8_valid s2
        | _ => false
        end
      else if byte_in 224 239 c then
        match s1 with
        | String c1 (String c2 s3) =>
            (if Nat.eqb (nat_of_ascii c) 224 then byte_in 160 191 c1
             else if Nat.eqb (nat_of_ascii c) 237 then byte_in 128 159 c1
             else byte_in 128 191 c1)
            && byte_in 128 191 c2 && utf8_valid s3
        | _ => false
        end
      else if byte_in 240 244 c then
        match s1 with
        | String c1 (String c2 (String c3 s4)) =>
            (if Nat.eqb (nat_of_ascii c) 240 then byte_in 144 191 c1
             else if Nat.eqb (nat_of_ascii c) 244 then byte_in 128 143 c1
             else byte_in 128 191 c1)
            && byte_in 128 191 c2 && byte_in 128 191 c3 && utf8_valid s4
        | _ => false
        end
      else false
  end.

(* ------------------------------------------------------------------ *)
(** ** Pipeline stages (build.rs) *)

(** [create_boulder_config] (lines 149-185). *)
Definition render_remote (r : Remote) : string :=
  nl +:+ "        " +:+ name r +:+ ":" +:+ nl
  +:+ "            uri: " +:+ quote +:+ uri_text (index_uri r) +:+ quote +:+ nl
  +:+ "            description: " +:+ quote +:+ "Remotely configured repository"
  +:+ quote +:+ nl
  +:+ "            priority: " +:+ pretty (priority r) +:+ nl
  +:+ "                ".

Definition render_config (rs : list Remote) : string :=
  nl +:+ "avalanche:" +:+ nl +:+ "    repositories:" +:+ nl
  +:+ String.concat nl (map render_remote rs) +:+ nl +:+ "        ".

Definition create_boulder_config (work_dir : path) (rs : list Remote) : M unit :=
  let config := render_config rs in
  let config_dir := join work_dir "etc/boulder/profile.d" in
  let? _ := context "create boulder config dir" (ensure_dir_exists config_dir) in
  let? _ := context "write boulder config"
              (fs_write (join config_dir "avalanche.yaml") config) in
  ret tt.

(** [build_recipe] (lines 187-220). *)
Definition boulder_args (work_dir asset_dir : path) (relative_path : string) : list string :=
  ["nice"; "-n20"; "boulder"; "build"; "-p"; "avalanche"; "--update"; "-o";
   path_to_string asset_dir; "--config-dir"; path_to_string (join work_dir "etc/boulder");
   "--"; relative_path].

Definition build_recipe (env : Env) (work_dir asset_dir worktree_dir : path)
    (relative_path : string) (log_path : path) : M unit :=
  let? _ := context "create log file" (create_file log_path) in
  let? _ := try_clone log_path in
  let? _ := spawn env (Sudo (boulder_args work_dir asset_dir relative_path)
                            worktree_dir log_path) in
  ret tt.

(** [compress_file] (lines 222-240), run through [spawn_blocking]. *)
Definition compress_file (env : Env) (file : path) : M unit :=
  let? _ := context "open plain file" (open_file file) in
  let gz := gz_path file in
  let? _ := context "create compressed file" (create_file gz) in
  let? plain := read_file file in
  let? _ := write_file gz (gzip env plain) in
  let? _ := context "remove plain file" (remove_file file) in
  ret tt.

(** [compute_sha256] (lines 281-291). *)
Definition compute_sha256 (env : Env) (file : path) : M string :=
  let? _ := context "open file" (open_file file) in
  let? content := read_file file in
  ret (sha256_hex env content).

(** The kind chosen in lines 254-264. *)
Definition classify (file_name : string) : Kind :=
  if ends_with file_name ".bin" then BinaryManifest
  else if ends_with file_name ".jsonc" then JsonManifest
  else if ends_with file_name ".log.gz" then Log
  else if ends_with file_name ".stone" then Package
  else Unknown.

(** [format!("{host_address}assets/{build_id}/{file_name}")]. *)
Definition asset_uri_text (build_id : N) (host : Uri) (file_name : string) : string :=
  uri_text host +:+ "assets/" +:+ pretty build_id +:+ "/" +:+ file_name.

(** One iteration of the loop of [scan_collectables]. *)
Definition scan_entry (env : Env) (build_id : N) (host : Uri) (asset_dir : path)
    (file_name : string) : M (option Collectable) :=
  if utf8_valid file_name then
    let k := classify file_name in
    match parse_uri env (asset_uri_text build_id host file_name) with
    | None => fail ["invalid asset URI"; "invalid uri"]
    | Some u =>
        let? sha := context "compute asset sha256"
                      (compute_sha256 env (asset_dir ++ [file_name])) in
        ret (Some (mkCollectable k u sha))
    end
  else ret None.

Fixpoint scan_loop (env : Env) (build_id : N) (host : Uri) (asset_dir : path)
    (names : list string) (acc : list Collectable) : M (list Collectable) :=
  match names with
  | [] => ret acc
  | n :: names' =>
      let? o := scan_entry env build_id host asset_dir n in
      scan_loop env build_id host asset_dir names'
        (match o with Some c => acc ++ [c] | None => acc end)
  end.

(** [scan_collectables] (lines 242-279). *)
Definition scan_collectables (env : Env) (build_id : N) (host : Uri) (asset_dir : path)
    : M (list Collectable) :=
  let? names := context "read asset dir" (read_dir asset_dir) in
  scan_loop env build_id host asset_dir names [].

(** The directories derived in [run]. *)
Record Ctx := mkCtx {
  ctx_uri : Uri;
  mirror_dir : path;
  work_dir : path;
  worktree_dir : path;
  asset_dir : path;
  log_file : path
}.

(** Step 1 (lines 74-80): parse the URI and derive the mirror directory. *)
Definition resolve (env : Env) (st : State) (req : PackageBuild) : M (Uri * path) :=
  match parse_uri env (uri req) with
  | None => fail ["invalid upstream URI"; "invalid uri"]
  | Some u =>
      match strip_slash (uri_path u) with
      | None => fail ["path should always have leading slash"]
      | Some rest => ret (u, join (cache_dir st) rest)
      end
  end.

(** Step 2 (lines 82-95): the directories of the build. *)
Definition prepare_dirs (st : State) (req : PackageBuild) (u : Uri) (mirror : path) : M Ctx :=
  let? _ := (match parent mirror with
             | Some q => context "create mirror parent dir" (ensure_dir_exists q)
             | None => ret tt
             end) in
  let wd := join (state_dir st) "work" in
  let? _ := context "recreate work dir" (recreate_dir wd) in
  let wtd := join wd "source" in
  let? _ := context "create worktree dir" (ensure_dir_exists wtd) in
  let ad := join (join (root st) "assets") (pretty (build_id req)) in
  let? _ := context "recreate asset dir" (recreate_dir ad) in
  ret (mkCtx u mirror wd wtd ad (join ad "build.log")).

(** Step 3 (lines 97-105): mirror or update. *)
Definition sync_mirror (env : Env) (ctx : Ctx) : M unit :=
  let? w := get in
  if exists_path w (mirror_dir ctx) then git_remote_update env (mirror_dir ctx)
  else git_mirror env (ctx_uri ctx) (mirror_dir ctx).

(** Steps 1 to 5 (lines 74-114). *)
Definition prepare (env : Env) (st : State) (req : PackageBuild) : M Ctx :=
  let? um := resolve env st req in
  let? ctx := prepare_dirs st req um.1 um.2 in
  let? _ := sync_mirror env ctx in
  let? _ := context "checkout commit as worktree"
              (git_checkout_worktree env (mirror_dir ctx) (worktree_dir ctx) (commit_ref req)) in
  let? _ := context "create boulder config" (create_boulder_config (work_dir ctx) (remotes req)) in
  ret ctx.

(** [Result::err]: the error of a stage, without propagating it. *)
Definition catch_err (m : M unit) : M (option Report) :=
  fun w => match m w with
           | (Ok _, w') => (Ok None, w')
           | (Err e, w') => (Ok (Some e), w')
           end.

(** Steps 7 to 9 (lines 120-134), after the build of step 6. *)
Definition finish (env : Env) (cfg : Config) (req : PackageBuild) (ctx : Ctx)
    (error : option Report) : M (option Report * list Collectable) :=
  let? _ := context "compress log file" (compress_file env (log_file ctx)) in
  let? cs := context "scan collectables"
               (scan_collectables env (build_id req) (host_address cfg) (asset_dir ctx)) in
  let? _ := context "remove worktree"
              (git_remove_worktree env (mirror_dir ctx) (worktree_dir ctx)) in
  ret (error, cs).

(** [run] (lines 68-135). *)
Definition run (env : Env) (st : State) (cfg : Config) (req : PackageBuild)
    : M (option Report * list Collectable) :=
  let? ctx := prepare env st req in
  let? error := catch_err (build_recipe env (work_dir ctx) (asset_dir ctx)
                             (worktree_dir ctx) (relative_path req) (log_file ctx)) in
  finish env cfg req ctx error.

(** The two messages sent to summit. *)
Inductive Message :=
| BuildSucceeded (task_id : N) (collectables : list Collectable)
| BuildFailed (task_id : N) (collectables : list Collectable).

(** The message chosen in [build] (lines 33-60). *)
Definition status_of (task_id : N) (r : result (option Report * list Collectable)) : Message :=
  match r with
  | Ok (None, cs) => BuildSucceeded task_id cs
  | Ok (Some _, cs) => BuildFailed task_id cs
  | Err _ => BuildFailed task_id []
  end.

(** [build] (lines 25-66): the message sent and the world after [run];
    a failed delivery is only logged. *)
Definition build (env : Env) (st : State) (cfg : Config) (req : PackageBuild) (w : world)
    : Message * world :=
  let '(r, w') := run env st cfg req w in (status_of (build_id req) r, w').

(* ------------------------------------------------------------------ *)
(** ** [SharedMap] (service/src/sync.rs) *)

Section SharedMapModel.
Context {K V : Type} `{Countable K}.

(** [SharedMap<K, V>]: a handle on one [Arc<Mutex<HashMap<K, V>>>].  The
    maps live in a shared store indexed by allocation; a [Clone] of the
    handle names the same map. *)
Record SharedMap := mkSharedMap { sm_loc : positive }.

(** The map the handle points to, as its mutex guard sees it. *)
Definition sm_contents (m : SharedMap) (store : gmap positive (gmap K V)) : gmap K V :=
  default ∅ (store !! sm_loc m).

(** [SharedMap::default]: a fresh, empty map. *)
Definition sm_default (store : gmap positive (gmap K V)) : SharedMap * gmap positive (gmap K V) :=
  let l := fresh (dom store) in (mkSharedMap l, <[l := ∅]> store).

(** [Clone]: the [Arc] is shared. *)
Definition sm_clone (m : SharedMap) : SharedMap := mkSharedMap (sm_loc m).

(** [SharedMap::insert]: [HashMap::insert] under the lock. *)
Definition sm_insert (m : SharedMap) (k : K) (v : V) (store : gmap positive (gmap K V))
    : unit * gmap positive (gmap K V) :=
  (tt, <[sm_loc m := <[k := v]> (sm_contents m store)]> store).

(** [SharedMap::remove]: [HashMap::remove] under the lock. *)
Definition sm_remove (m : SharedMap) (k : K) (store : gmap positive (gmap K V))
    : option V * gmap positive (gmap K V) :=
  let mp := sm_contents m store in
  (mp !! k, <[sm_loc m := delete k mp]> store).

End SharedMapModel.

(* ------------------------------------------------------------------ *)
(** ** [profile::remote::create] (summit/src/profile/remote.rs) *)

(** A row of the [profile_remote] table. *)
Record Row := mkRow {
  row_profile_id : Z;
  row_index_uri : string;
  row_name : string;
  row_priority : Z
}.

(** The transaction: rows inserted so far, and whether the database
    rejects the next statement. *)
Record Transaction := mkTransaction {
  tx_rows : list Row;
  tx_fails : bool
}.

(** [priority as i64]: the low 64 bits read in two's complement. *)
Definition u64_as_i64 (p : N) : Z :=
  let z := (Z.of_N p mod 2 ^ 64)%Z in
  if (z <? 2 ^ 63)%Z then z else (z - 2 ^ 64)%Z.

(** [create]; [profile] is the [i64] of [profile::Id]. *)
Definition create (tx : Transaction) (profile : Z) (index_uri : Uri) (name : string)
    (priority : N) : result Remote * Transaction :=
  if tx_fails tx then (Err ["error returned from database"], tx)
  else
    let row := mkRow profile (uri_text index_uri) name (u64_as_i64 priority) in
    (Ok (mkRemote index_uri name priority),
     mkTransaction (tx_rows tx ++ [row]) (tx_fails tx)).

(* ------------------------------------------------------------------ *)
(** ** Predicates used in the statements *)

(** A string with a '/' in it. *)
Fixpoint has_slash (s : string) : bool :=
  match s with
  | EmptyString => false
  | String c s' => bool_decide (c = "/"%char) || has_slash s'
  end.

(** [p] is a directory with nothing below it. *)
Definition empty_dir (w : world) (p : path) : Prop :=
  is_dir w p = true /\
  forall q, starts_with_path p q = true -> q <> p -> w_fs w !! q = None.

(** A well-formed disk: the parent of every node is a directory. *)
Definition fs_wf (w : world) : Prop :=
  forall q n, w_fs w !! q = Some n -> q <> [] -> is_dir w (removelast q) = true.

(** A computation leaves the record of spawned commands as it was. *)
Definition keeps {A} (m : M A) : Prop :=
  forall w r w', m w = (r, w') -> w_spawned w' = w_spawned w.

(** A computation only adds commands at the end of the record. *)
Definition appends {A} (m : M A) : Prop :=
  forall w r w', m w = (r, w') -> exists l, w_spawned w' = (w_spawned w ++ l)%list.

(* ------------------------------------------------------------------ *)
(** ** A concrete deployment, for the examples *)

Module Scenario.

Definition repo_uri : string := "https://git.example/org/repo".

(** The [http] parser on the strings of the scenario. *)
Definition parse (s : string) : option Uri :=
  if bool_decide (s = "not a uri") then None
  else if bool_decide (s = repo_uri) then Some (mkUri s "/org/repo")
  else Some (mkUri s "/").

(** git always succeeds (a mirror clone creates its directory); boulder
    writes its log and a package, and exits with [build_ok]; removing the
    worktree exits with [rm_ok]. *)
Definition commands (build_ok rm_ok : bool) (c : cmd) (fs : gmap path node)
    : bool * gmap path node :=
  match c with
  | GitMirror _ dest => (true, <[dest := Dir]> fs)
  | Sudo _ _ log =>
      (build_ok, <[(removelast log ++ ["pkg.stone"])%list := File "stone"]>
                   (<[log := File "output"]> fs))
  | GitRemoveWorktree _ _ => (rm_ok, fs)
  | _ => (true, fs)
  end.

Definition env (build_ok rm_ok : bool) : Env :=
  mkEnv parse (commands build_ok rm_ok) (fun s => "gz:" +:+ s) (fun s => "sha:" +:+ s).

Definition state : State := mkState ["var"; "cache"] ["var"; "state"] ["srv"].

Definition config : Config := mkConfig (mkUri "https://worker.example/" "/").

Definition request (id : N) (u : string) : PackageBuild :=
  mkPackageBuild id u "abc123" "recipe/stone.yaml"
    [mkRemote (mkUri "https://index.example/volatile" "/volatile") "volatile" 10].

(** An empty disk with no failing operation. *)
Definition world0 : world := mkWorld ∅ [] [].

(** A disk on which the compressed log of build 7 cannot be created. *)
Definition world_gz_fault : world :=
  mkWorld ∅ [(OpCreate, ["srv"; "assets"; "7"; "build.log.gz"])] [].

(** A disk that already holds the mirror of the repository. *)
Definition world_mirrored : world :=
  mkWorld (<[["var"; "cache"; "org"; "repo"] := Dir]>
             (<[["var"; "cache"; "org"] := Dir]> (<[["var"; "cache"] := Dir]>
               (<[["var"] := Dir]> ∅)))) [] [].

Definition req7 : PackageBuild := request 7 repo_uri.

Definition ctx_of (r : result Ctx * world) : Ctx :=
  match r.1 with
  | Ok c => c
  | Err _ => mkCtx (mkUri EmptyString EmptyString) [] [] [] [] []
  end.

Definition err_of {A} (r : result A * world) : Report :=
  match r.1 with Err e => e | Ok _ => [] end.

Definition cs_of (r : result (list Collectable) * world) : list Collectable :=
  match r.1 with Ok cs => cs | Err _ => [] end.

(** The stages of build 7 on [world0]: the builder exits non-zero. *)
Definition bf_env : Env := env false true.
Definition bf_prep := prepare bf_env state req7 world0.
Definition bf_ctx : Ctx := ctx_of bf_prep.
Definition bf_w1 : world := bf_prep.2.
Definition bf_build := build_recipe bf_env (work_dir bf_ctx) (asset_dir bf_ctx)
                         (worktree_dir bf_ctx) (relative_path req7) (log_file bf_ctx) bf_w1.
Definition bf_e : Report := err_of bf_build.
Definition bf_w2 : world := bf_build.2.
Definition bf_w3 : world := (compress_file bf_env (log_file bf_ctx) bf_w2).2.
Definition bf_scan := scan_collectables bf_env 7 (host_address config) (asset_dir bf_ctx) bf_w3.
Definition bf_cs : list Collectable := cs_of bf_scan.
Definition bf_w4 : world := bf_scan.2.

(** The stages of build 7 on [world_gz_fault]: the builder succeeds. *)
Definition gz_env : Env := env true true.
Definition gz_prep := prepare gz_env state req7 world_gz_fault.
Definition gz_ctx : Ctx := ctx_of gz_prep.
Definition gz_w1 : world := gz_prep.2.
Definition gz_build := build_recipe gz_env (work_dir gz_ctx) (asset_dir gz_ctx)
                         (worktree_dir gz_ctx) (relative_path req7) (log_file gz_ctx) gz_w1.
Definition gz_w2 : world := gz_build.2.
Definition gz_compress := compress_file gz_env (log_file gz_ctx) gz_w2.
Definition gz_e : Report := err_of gz_compress.
Definition gz_w3 : world := gz_compress.2.

(** The stages of build 7 on [world0] when removing the worktree fails. *)
Definition rm_env : Env := env true false.
Definition rm_prep := prepare rm_env state req7 world0.
Definition rm_ctx : Ctx := ctx_of rm_prep.
Definition rm_w1 : world := rm_prep.2.
Definition rm_build := build_recipe rm_env (work_dir rm_ctx) (asset_dir rm_ctx)
                         (worktree_dir rm_ctx) (relative_path req7) (log_file rm_ctx) rm_w1.
Definition rm_w2 : world := rm_build.2.
Definition rm_w3 : world := (compress_file rm_env (log_file rm_ctx) rm_w2).2.
Definition rm_scan := scan_collectables rm_env 7 (host_address config) (asset_dir rm_ctx) rm_w3.
Definition rm_cs : list Collectable := cs_of rm_scan.
Definition rm_w4 : world := rm_scan.2.
Definition rm_remove := git_remove_worktree rm_env (mirror_dir rm_ctx) (worktree_dir rm_ctx) rm_w4.

(** Steps 1 and 2 of build 7 on [world_mirrored], where the mirror exists. *)
Definition mr_env : Env := env true true.
Definition mr_res := resolve mr_env state req7 world_mirrored.
Definition mr_um : Uri * path :=
  match mr_res.1 with Ok um => um | Err _ => (mkUri EmptyString EmptyString, []) end.
Definition mr_w1 : world := mr_res.2.
Definition mr_w2 : world := (prepare_dirs state req7 mr_um.1 mr_um.2 mr_w1).2.

(** A disk with a subdirectory in the asset directory of build 7. *)
Definition world_subdir : world :=
  mkWorld (<[["srv"; "assets"; "7"; "sub"] := Dir]>
             (<[["srv"; "assets"; "7"] := Dir]> (<[["srv"; "assets"] := Dir]>
               (<[["srv"] := Dir]> ∅)))) [] [].

(** A disk holding one regular file [/a]. *)
Definition world_file : world := mkWorld (<[["a"] := File "x"]> ∅) [] [].

(** A disk holding one directory [/a]. *)
Definition world_dir : world := mkWorld (<[["a"] := Dir]> ∅) [] [].

(** A disk holding a directory [/a] with a regular file [/a/f] in it. *)
Definition world_job : world :=
  mkWorld (<[["a"; "f"] := File "x"]> (<[["a"] := Dir]> ∅)) [] [].
Definition job_w1 : world := (recreate_dir ["a"] world_job).2.
Definition job_w2 : world := (recreate_dir ["a"] job_w1).2.

(** Build 7 on [world0] when every command succeeds. *)
Definition ok_env : Env := env true true.
Definition ok_build := build ok_env state config req7 world0.
Definition ok_cs : list Collectable :=
  match ok_build.1 with BuildSucceeded _ cs => cs | _ => [] end.

End Scenario.

(* ================================================================== *)
(** * Properties *)

Open Scope list_scope.

(** ** Strings *)

Lemma append_cons (c : ascii) (s t : string) : String c s +:+ t = String c (s +:+ t).
Proof. reflexivity. Qed.

Lemma list_ascii_of_string_app (a b : string) :
  list_ascii_of_string (a +:+ b) = list_ascii_of_string a ++ list_ascii_of_string b.
Proof.
  induction a as [|c a IH]; [done|]. rewrite append_cons. simpl. by rewrite IH.
Qed.

Lemma length_list_ascii_of_string (s : string) :
  length (list_ascii_of_string s) = String.length s.
Proof. induction s; simpl; auto. Qed.

Lemma prefixb_app (a b c : list ascii) :
  length a <= length b -> prefixb a (b ++ c) = prefixb a b.
Proof.
  revert b; induction a as [|x a IH]; intros [|y b] Hl; simpl in *; try done; try lia.
  rewrite IH; [done | lia].
Qed.

Lemma ends_with_app (p s t : string) :
  String.length t <= String.length s -> ends_with (p +:+ s) t = ends_with s t.
Proof.
  intros Hl. unfold ends_with.
  rewrite list_ascii_of_string_app, rev_app_distr, prefixb_app; [done|].
  rewrite !length_rev, !length_list_ascii_of_string. done.
Qed.

(** ** Claim C6 *)

(** C6: the kind of an artifact depends on the suffix of its file name
    only; the suffixes are tried in the order [.bin], [.jsonc], [.log.gz],
    [.stone], the first that matches decides, and a name matching none is
    [Unknown]; the scan gives every decodable entry the kind of its name
    and skips the others. *)
Theorem classify_by_suffix :
  (forall p q s : string, 7 <= String.length s ->
     classify (p +:+ s) = classify (q +:+ s)) /\
  (forall f, ends_with f ".bin" = true -> classify f = BinaryManifest) /\
  (forall f, ends_with f ".bin" = false -> ends_with f ".jsonc" = true ->
     classify f = JsonManifest) /\
  (forall f, ends_with f ".bin" = false -> ends_with f ".jsonc" = false ->
     ends_with f ".log.gz" = true -> classify f = Log) /\
  (forall f, ends_with f ".bin" = false -> ends_with f ".jsonc" = false ->
     ends_with f ".log.gz" = false -> ends_with f ".stone" = true -> classify f = Package) /\
  (forall f, ends_with f ".bin" = false -> ends_with f ".jsonc" = false ->
     ends_with f ".log.gz" = false -> ends_with f ".stone" = false -> classify f = Unknown) /\
  (forall env id host ad f w c w', utf8_valid f = true ->
     scan_entry env id host ad f w = (Ok (Some c), w') -> kind c = classify f) /\
  (forall env id host ad f w, utf8_valid f = false ->
     scan_entry env id host ad f w = (Ok None, w)) /\
  classify "foo.stone" = Package /\ classify "bar.jsonc" = JsonManifest /\
  classify "baz.bin" = BinaryManifest /\ classify "build.log.gz" = Log /\
  classify "readme.txt" = Unknown.
Proof.
  split.
  { intros p q s Hl. unfold classify.
    rewrite !(ends_with_app p s), !(ends_with_app q s) by (simpl; lia). done. }
  split; [intros f H; unfold classify; by rewrite H|].
  split; [intros f H1 H2; unfold classify; by rewrite H1, H2|].
  split; [intros f H1 H2 H3; unfold classify; by rewrite H1, H2, H3|].
  split; [intros f H1 H2 H3 H4; unfold classify; by rewrite H1, H2, H3, H4|].
  split; [intros f H1 H2 H3 H4; unfold classify; by rewrite H1, H2, H3, H4|].
  split.
  { intros env id host ad f w c w' Hv Hs. unfold scan_entry in Hs. rewrite Hv in Hs.
    destruct (parse_uri env _); [|discriminate].
    unfold bind, context, compute_sha256, bind, ret in Hs.
    repeat case_match; simplify_eq; done. }
  split; [intros env id host ad f w Hv; unfold scan_entry; by rewrite Hv|].
  vm_compute. done.
Qed.

(** ** Claim C9 *)

Lemma sm_contents_update {K V : Type} `{Countable K}
    (m : SharedMap) (mp : gmap K V) (store : gmap positive (gmap K V)) :
  sm_contents m (<[sm_loc m := mp]> store) = mp.
Proof. unfold sm_contents. by rewrite lookup_insert_eq. Qed.

(** C9: [insert] stores the value under the key, overwriting an earlier
    one and leaving the other keys alone; [remove] returns the value
    stored under the key ([Some] when present, [None] when absent) and
    deletes the entry, leaving the other keys alone. *)
Theorem shared_map_insert_remove {K V : Type} `{Countable K}
    (m : SharedMap) (k : K) (v : V) (store : gmap positive (gmap K V)) :
  (sm_contents m (sm_insert m k v store).2 !! k = Some v /\
   forall k', k' <> k ->
     sm_contents m (sm_insert m k v store).2 !! k' = sm_contents m store !! k') /\
  (sm_remove m k store).1 = sm_contents m store !! k /\
  (forall v0, sm_contents m store !! k = Some v0 -> (sm_remove m k store).1 = Some v0) /\
  (sm_contents m store !! k = None -> (sm_remove m k store).1 = None) /\
  sm_contents m (sm_remove m k store).2 !! k = None /\
  (forall k', k' <> k ->
     sm_contents m (sm_remove m k store).2 !! k' = sm_contents m store !! k') /\
  (sm_remove m k (sm_insert m k v store).2).1 = Some v.
Proof.
  unfold sm_insert, sm_remove; cbn [fst snd].
  rewrite !sm_contents_update.
  split; [split; [by rewrite lookup_insert_eq | intros k' Hk; by rewrite lookup_insert_ne]|].
  split; [done|].
  split; [intros v0 Hv; done|].
  split; [intros Hv; done|].
  split; [by rewrite lookup_delete_eq|].
  split; [intros k' Hk; by rewrite lookup_delete_ne|].
  by rewrite lookup_insert_eq.
Qed.

(** ** Claim C10 *)

(** C10: a [Remote] returned by [create] carries exactly the arguments,
    while the inserted row holds [priority as i64]; for a priority of
    at least 2^63 the two differ. *)
Theorem create_priority_cast (tx : Transaction) (profile : Z) (u : Uri) (nm : string)
    (p : N) :
  (p < 2 ^ 64)%N ->
  (forall r tx', create tx profile u nm p = (Ok r, tx') ->
     index_uri r = u /\ name r = nm /\ priority r = p /\
     tx_rows tx' = tx_rows tx ++ [mkRow profile (uri_text u) nm (u64_as_i64 p)]) /\
  (tx_fails tx = false -> exists r tx', create tx profile u nm p = (Ok r, tx')) /\
  ((2 ^ 63 <= p)%N -> u64_as_i64 p <> Z.of_N p).
Proof.
  intros Hp. split; [|split].
  - intros r tx'. unfold create. destruct (tx_fails tx); [done|].
    intros [= <- <-]. done.
  - intros Hf. unfold create. rewrite Hf. by eexists _, _.
  - intros Hge. unfold u64_as_i64.
    assert (Z.of_N p mod 2 ^ 64 = Z.of_N p)%Z as ->.
    { apply Z.mod_small. split; [lia|]. change (2 ^ 64)%Z with (Z.of_N (2 ^ 64)). lia. }
    assert ((Z.of_N p <? 2 ^ 63)%Z = false) as ->.
    { apply Z.ltb_ge. change (2 ^ 63)%Z with (Z.of_N (2 ^ 63)). lia. }
    lia.
Qed.

(** ** The monad *)

Lemma bind_ok {A B} (m : M A) (k : A -> M B) (w : world) (b : B) (w' : world) :
  bind m k w = (Ok b, w') -> exists a w1, m w = (Ok a, w1) /\ k a w1 = (Ok b, w').
Proof. unfold bind. destruct (m w) as [[a|e] w1]; [eauto | discriminate]. Qed.

Lemma context_ok {A} (msg : string) (m : M A) (w : world) (a : A) (w' : world) :
  context msg m w = (Ok a, w') -> m w = (Ok a, w').
Proof. unfold context. destruct (m w) as [[a'|e] w1]; congruence. Qed.

Ltac peel H :=
  repeat match type of H with
         | bind _ _ _ = (Ok _, _) =>
             let H1 := fresh "Hs" in apply bind_ok in H as (?&?&H1&H)
         end.

(** ** Paths *)

Lemma string_app_empty_r (s : string) : s +:+ EmptyString = s.
Proof. induction s as [|c s IH]; [done|]. by rewrite append_cons, IH. Qed.

Lemma string_app_assoc_l (a b c : string) : (a +:+ b) +:+ c = a +:+ (b +:+ c).
Proof. induction a as [|x a IH]; [done|]. by rewrite !append_cons, IH. Qed.

Lemma split_slash_plain (cur s : string) :
  has_slash s = false -> split_slash cur s = [cur +:+ s].
Proof.
  revert cur; induction s as [|c s IH]; intros cur Hs; simpl in *.
  - by rewrite string_app_empty_r.
  - apply orb_false_iff in Hs as [Hc Hs]. rewrite Hc, IH by done.
    by rewrite string_app_assoc_l.
Qed.

Lemma join_plain (p : path) (s : string) :
  has_slash s = false -> s <> EmptyString -> join p s = p ++ [s].
Proof.
  intros Hs Hne. destruct s as [|c s']; [done|].
  pose proof Hs as Hs'. simpl in Hs'. apply orb_false_iff in Hs' as [Hc _].
  unfold join. rewrite Hc. unfold split_components.
  rewrite split_slash_plain by done. simpl.
  rewrite filter_cons_True by done. done.
Qed.

Lemma pretty_N_char_not_slash (x : N) : bool_decide (pretty_N_char x = "/"%char) = false.
Proof. unfold pretty_N_char. repeat case_match; done. Qed.

Lemma pretty_N_go_no_slash (x : N) (s : string) :
  has_slash s = false -> has_slash (pretty_N_go x s) = false.
Proof.
  revert s. induction (N.lt_wf_0 x) as [x _ IH]; intros s Hs.
  destruct (decide (x = 0)%N) as [->|Hx]; [by rewrite pretty_N_go_0|].
  rewrite pretty_N_go_step by lia. apply IH; [apply N.div_lt; lia|].
  simpl. by rewrite pretty_N_char_not_slash.
Qed.

Lemma pretty_N_go_nonempty (x : N) (s : string) : s <> EmptyString -> pretty_N_go x s <> EmptyString.
Proof.
  revert s. induction (N.lt_wf_0 x) as [x _ IH]; intros s Hs.
  destruct (decide (x = 0)%N) as [->|Hx]; [by rewrite pretty_N_go_0|].
  rewrite pretty_N_go_step by lia. apply IH; [apply N.div_lt; lia|]. done.
Qed.

(** The decimal text of a [u64] is one path component. *)
Lemma pretty_N_plain (n : N) : has_slash (pretty n) = false /\ pretty n <> EmptyString.
Proof.
  unfold pretty, pretty_N. case_decide as Hn; [done|]. split.
  - by apply pretty_N_go_no_slash.
  - rewrite pretty_N_go_step by lia. by apply pretty_N_go_nonempty.
Qed.

Lemma join_pretty (p : path) (n : N) : join p (pretty n) = p ++ [pretty n].
Proof. destruct (pretty_N_plain n). by apply join_plain. Qed.

(** ** Step 1 and the derived directories *)

Lemma prepare_dirs_ctx (st : State) (req : PackageBuild) (u : Uri) (mirror : path)
    (w : world) (ctx : Ctx) (w' : world) :
  prepare_dirs st req u mirror w = (Ok ctx, w') ->
  ctx = mkCtx u mirror (state_dir st ++ ["work"]) (state_dir st ++ ["work"; "source"])
          (root st ++ ["assets"; pretty (build_id req)])
          (root st ++ ["assets"; pretty (build_id req); "build.log"]).
Proof.
  unfold prepare_dirs. intros H. peel H. unfold ret in H.
  rewrite join_pretty, !join_plain in H by done.
  rewrite <- !app_assoc in H. simpl in H. congruence.
Qed.

Lemma prepare_ctx (env : Env) (st : State) (req : PackageBuild) (w : world)
    (ctx : Ctx) (w' : world) :
  prepare env st req w = (Ok ctx, w') ->
  exists um w1 w2,
    resolve env st req w = (Ok um, w1) /\
    prepare_dirs st req um.1 um.2 w1 = (Ok ctx, w2) /\
    ctx = mkCtx um.1 um.2 (state_dir st ++ ["work"]) (state_dir st ++ ["work"; "source"])
            (root st ++ ["assets"; pretty (build_id req)])
            (root st ++ ["assets"; pretty (build_id req); "build.log"]).
Proof.
  unfold prepare. intros H. apply bind_ok in H as (um & w1 & Hr & H).
  apply bind_ok in H as (ctx' & w2 & Hd & H). peel H.
  unfold ret in H. simplify_eq.
  exists um, w1, w2. split; [done|]. split; [done|]. by eapply prepare_dirs_ctx.
Qed.

(** ** Claim C4 *)

(** C4, as amended: for two builds with distinct build ids run with the
    same [State], the asset directories (and the log files in them) are
    distinct, while the work directory and the worktree directory are the
    same two paths, [state_dir/work] and [state_dir/work/source]. *)
Theorem build_dirs_keying (env1 env2 : Env) (st : State) (req1 req2 : PackageBuild)
    (w1 w2 : world) (c1 c2 : Ctx) (w1' w2' : world) :
  prepare env1 st req1 w1 = (Ok c1, w1') ->
  prepare env2 st req2 w2 = (Ok c2, w2') ->
  build_id req1 <> build_id req2 ->
  asset_dir c1 <> asset_dir c2 /\ log_file c1 <> log_file c2 /\
  work_dir c1 = work_dir c2 /\ worktree_dir c1 = worktree_dir c2 /\
  work_dir c1 = state_dir st ++ ["work"] /\
  worktree_dir c1 = state_dir st ++ ["work"; "source"].
Proof.
  intros H1 H2 Hid.
  apply prepare_ctx in H1 as (?&?&?&_&_&->). apply prepare_ctx in H2 as (?&?&?&_&_&->).
  cbn [asset_dir log_file work_dir worktree_dir].
  split.
  { intros Heq. apply app_inv_head in Heq. simplify_eq; by apply Hid, (inj pretty). }
  split.
  { intros Heq. apply app_inv_head in Heq. simplify_eq; by apply Hid, (inj pretty). }
  done.
Qed.

(** C4 fails as stated: builds 1 and 2 of the same worker use the same
    work directory and the same worktree directory. *)
Lemma work_dir_shared_across_builds :
  match prepare (Scenario.env true true) Scenario.state
          (Scenario.request 1 Scenario.repo_uri) Scenario.world0,
        prepare (Scenario.env true true) Scenario.state
          (Scenario.request 2 Scenario.repo_uri) Scenario.world0 with
  | (Ok c1, _), (Ok c2, _) =>
      build_id (Scenario.request 1 Scenario.repo_uri)
        <> build_id (Scenario.request 2 Scenario.repo_uri) /\
      work_dir c1 = work_dir c2 /\ worktree_dir c1 = worktree_dir c2 /\
      work_dir c1 = ["var"; "state"; "work"]
  | _, _ => False
  end.
Proof. vm_compute. split; [discriminate | done]. Qed.

Lemma build_dirs_keying_witness :
  asset_dir (Scenario.ctx_of (prepare (Scenario.env true true) Scenario.state
                                (Scenario.request 1 Scenario.repo_uri) Scenario.world0))
  <> asset_dir (Scenario.ctx_of (prepare (Scenario.env true true) Scenario.state
                                   (Scenario.request 2 Scenario.repo_uri) Scenario.world0)).
Proof.
  exact (proj1 (build_dirs_keying (Scenario.env true true) (Scenario.env true true)
    Scenario.state (Scenario.request 1 Scenario.repo_uri) (Scenario.request 2 Scenario.repo_uri)
    Scenario.world0 Scenario.world0 _ _
    (prepare (Scenario.env true true) Scenario.state
       (Scenario.request 1 Scenario.repo_uri) Scenario.world0).2
    (prepare (Scenario.env true true) Scenario.state
       (Scenario.request 2 Scenario.repo_uri) Scenario.world0).2
    ltac:(vm_compute; reflexivity) ltac:(vm_compute; reflexivity)
    ltac:(vm_compute; discriminate))).
Defined.

(** ** Claim C5 *)

Lemma resolve_malformed (env : Env) (st : State) (req : PackageBuild) (w : world) :
  (parse_uri env (uri req) = None \/
   exists u, parse_uri env (uri req) = Some u /\ strip_slash (uri_path u) = None) ->
  exists e, resolve env st req w = (Err e, w).
Proof.
  unfold resolve. intros [Hp | (u & Hp & Hs)]; rewrite Hp; [by eexists|].
  rewrite Hs. by eexists.
Qed.

(** C5: when the request's URI does not parse, or its path has no
    leading '/', [run] fails on the world it was given (no directory is
    created, removed or changed, no command is spawned) and [build] sends
    [BuildFailed] with no collectables. *)
Theorem malformed_uri_aborts_untouched (env : Env) (st : State) (cfg : Config)
    (req : PackageBuild) (w : world) :
  (parse_uri env (uri req) = None \/
   exists u, parse_uri env (uri req) = Some u /\ strip_slash (uri_path u) = None) ->
  (exists e, run env st cfg req w = (Err e, w)) /\
  build env st cfg req w = (BuildFailed (build_id req) [], w).
Proof.
  intros H. destruct (resolve_malformed env st req w H) as [e He].
  assert (run env st cfg req w = (Err e, w)) as Hrun.
  { unfold run, prepare, bind. rewrite He. done. }
  split; [by exists e|]. unfold build. by rewrite Hrun.
Qed.

Lemma malformed_uri_aborts_untouched_witness :
  build (Scenario.env true true) Scenario.state Scenario.config
    (Scenario.request 3 "not a uri") Scenario.world0
  = (BuildFailed 3 [], Scenario.world0).
Proof.
  apply (malformed_uri_aborts_untouched (Scenario.env true true) Scenario.state
           Scenario.config (Scenario.request 3 "not a uri") Scenario.world0).
  left. vm_compute. reflexivity.
Defined.

(** Witness of C10 at the priority 2^63. *)
Lemma create_priority_cast_witness :
  create (mkTransaction [] false) 1 (Scenario.config.(host_address)) "volatile" (2 ^ 63)
  = (Ok (mkRemote (Scenario.config.(host_address)) "volatile" (2 ^ 63)),
     mkTransaction [mkRow 1 "https://worker.example/" "volatile" (- 2 ^ 63)] false) /\
  u64_as_i64 (2 ^ 63) <> Z.of_N (2 ^ 63).
Proof.
  split; [vm_compute; reflexivity|].
  apply (create_priority_cast (mkTransaction [] false) 1 (Scenario.config.(host_address))
           "volatile" (2 ^ 63)); vm_compute; [reflexivity | discriminate].
Defined.

(** ** Claim C8 *)

Lemma starts_with_path_spec (p q : path) :
  starts_with_path p q = true <-> exists r, q = p ++ r.
Proof.
  revert q; induction p as [|a p IH]; intros [|b q]; simpl.
  - split; [by exists [] | done].
  - split; [by eexists | done].
  - split; [done | intros [r Hr]; discriminate].
  - rewrite andb_true_iff, bool_decide_eq_true, IH. split.
    + intros [-> [r ->]]. by exists r.
    + intros [r Hr]. simplify_eq. eauto.
Qed.

Lemma starts_with_path_long (p q : path) :
  starts_with_path p q = true -> q <> p -> length p < length q.
Proof.
  intros [r ->]%starts_with_path_spec Hne. rewrite length_app.
  destruct r; [by rewrite app_nil_r in Hne | simpl; lia].
Qed.

Lemma ancestors_length (p q : path) : q ∈ ancestors p -> length q <= length p.
Proof.
  unfold ancestors. intros (i & -> & _)%list_elem_of_fmap. rewrite length_take. lia.
Qed.

Lemma ancestors_self (p : path) : p <> [] -> p ∈ ancestors p.
Proof.
  intros Hp. unfold ancestors. apply list_elem_of_fmap. exists (length p).
  rewrite take_ge by lia. split; [done|]. apply elem_of_seq.
  destruct p; [done | simpl; lia].
Qed.

Lemma create_dir_ok (p : path) (w w' : world) (u : unit) :
  create_dir p w = (Ok u, w') ->
  lookup_node w' p = Some Dir /\ (forall q, q <> p -> w_fs w' !! q = w_fs w !! q).
Proof.
  unfold create_dir. destruct (lookup_node w p) as [[|c]|] eqn:Hl.
  - intros [= _ <-]. done.
  - discriminate.
  - destruct (faulty w OpCreateDir p); [discriminate|]. intros [= _ <-].
    split.
    + destruct p; [done|]. unfold lookup_node; simpl. by rewrite lookup_insert_eq.
    + intros q Hq. simpl. by rewrite lookup_insert_ne.
Qed.

Lemma lookup_node_same (w w' : world) (q : path) :
  w_fs w' !! q = w_fs w !! q -> lookup_node w' q = lookup_node w q.
Proof. destruct q; simpl; [done | intros ->; done]. Qed.

Lemma create_each_ok (ps : list path) (w w' : world) (u : unit) :
  create_each ps w = (Ok u, w') ->
  (forall q, q ∈ ps -> lookup_node w' q = Some Dir) /\
  (forall q, q ∉ ps -> w_fs w' !! q = w_fs w !! q).
Proof.
  revert w; induction ps as [|p ps IH]; intros w H; simpl in H.
  - unfold ret in H. simplify_eq. split; [intros q Hq; set_solver | done].
  - apply bind_ok in H as ([] & w1 & Hc & H).
    apply create_dir_ok in Hc as [Hp Hothers]. apply IH in H as [Hin Hout].
    split.
    + intros q [->|Hq]%elem_of_cons; [|by apply Hin].
      destruct (decide (p ∈ ps)); [by apply Hin|].
      rewrite (lookup_node_same w1 w'); [done|]. by apply Hout.
    + intros q Hq. apply not_elem_of_cons in Hq as [Hq1 Hq2].
      rewrite Hout by done. by apply Hothers.
Qed.

Lemma create_dir_all_ok (p : path) (w w' : world) (u : unit) :
  create_dir_all p w = (Ok u, w') ->
  is_dir w' p = true /\
  (forall q, starts_with_path p q = true -> q <> p -> w_fs w' !! q = w_fs w !! q).
Proof.
  unfold create_dir_all. intros [Hin Hout]%create_each_ok. split.
  - unfold is_dir. destruct p as [|a p]; [done|]. by rewrite Hin by (by apply ancestors_self).
  - intros q Hs Hne. apply Hout. intros Hq%ancestors_length.
    pose proof (starts_with_path_long p q Hs Hne). lia.
Qed.

Lemma remove_dir_all_ok (p : path) (w w' : world) (u : unit) :
  remove_dir_all p w = (Ok u, w') ->
  forall q, starts_with_path p q = true -> w_fs w' !! q = None.
Proof.
  unfold remove_dir_all. destruct (lookup_node w p) as [[|c]|]; try discriminate.
  destruct (faulty w OpRemove p); [discriminate|]. intros [= _ <-] q Hq. simpl.
  apply map_lookup_filter_None. right. intros x _. simpl. by rewrite Hq.
Qed.

(** On a well-formed disk nothing lies below a path that does not exist. *)
Lemma fs_wf_absent (w : world) (p : path) :
  fs_wf w -> exists_path w p = false ->
  forall q, starts_with_path p q = true -> w_fs w !! q = None.
Proof.
  intros Hwf Hp q [r ->]%starts_with_path_spec.
  assert (p <> []) as Hpne by (intros ->; discriminate).
  induction r as [|x r IH] using rev_ind.
  - rewrite app_nil_r. unfold exists_path, lookup_node in Hp.
    destruct p; [done|]. by destruct (w_fs w !! _).
  - destruct (w_fs w !! (p ++ r ++ [x])) as [n|] eqn:Hn; [|done]. exfalso.
    assert (p ++ r ++ [x] <> []) as Hne by (by destruct p).
    specialize (Hwf _ _ Hn Hne) as Hd.
    rewrite app_assoc, removelast_last in Hd. unfold is_dir, lookup_node in Hd.
    destruct (p ++ r) eqn:Hpr; [by apply app_eq_nil in Hpr as [??]|].
    rewrite IH in Hd. discriminate.
Qed.

Lemma recreate_dir_ok (p : path) (w w' : world) (u : unit) :
  recreate_dir p w = (Ok u, w') ->
  (exists_path w p = true \/ forall q, starts_with_path p q = true -> w_fs w !! q = None) ->
  empty_dir w' p.
Proof.
  unfold recreate_dir. intros H Hpre. apply bind_ok in H as (w0 & w1 & Hget & H).
  unfold get in Hget. simplify_eq. apply bind_ok in H as ([] & w2 & Hrm & H).
  apply create_dir_all_ok in H as [Hdir Hkeep]. split; [done|].
  intros q Hs Hne. rewrite Hkeep by done.
  destruct (exists_path w0 p) eqn:He.
  - by eapply remove_dir_all_ok.
  - unfold ret in Hrm. simplify_eq. destruct Hpre as [Hpre|Hpre]; [congruence|].
    by apply Hpre.
Qed.

(** C8: on a well-formed disk, a successful [recreate_dir p] leaves [p]
    an empty directory, and a second successful [recreate_dir p] right
    after it leaves [p] an empty directory again. *)
Theorem recreate_dir_empty (p : path) (w w1 : world) :
  fs_wf w ->
  recreate_dir p w = (Ok tt, w1) ->
  empty_dir w1 p /\ (forall w2, recreate_dir p w1 = (Ok tt, w2) -> empty_dir w2 p).
Proof.
  intros Hwf H1.
  assert (empty_dir w1 p) as He1.
  { eapply recreate_dir_ok; [exact H1|].
    destruct (exists_path w p) eqn:He; [by left|]. right. by apply fs_wf_absent. }
  split; [done|]. intros w2 H2. eapply recreate_dir_ok; [exact H2|]. left.
  destruct He1 as [Hd _]. unfold is_dir, exists_path in *.
  by destruct (lookup_node w1 p) as [[]|].
Qed.

Lemma recreate_dir_empty_witness :
  fs_wf Scenario.world_job /\
  w_fs Scenario.world_job !! ["a"; "f"] = Some (File "x") /\
  empty_dir Scenario.job_w1 ["a"] /\ empty_dir Scenario.job_w2 ["a"] /\
  w_fs Scenario.job_w1 !! ["a"; "f"] = None.
Proof.
  assert (fs_wf Scenario.world_job) as Hwf.
  { intros q n Hq _. simpl in Hq.
    apply lookup_insert_Some in Hq as [[<- _]|[_ Hq]]; [vm_compute; reflexivity|].
    apply lookup_insert_Some in Hq as [[<- _]|[_ Hq]]; [vm_compute; reflexivity|].
    rewrite lookup_empty in Hq. discriminate. }
  destruct (recreate_dir_empty ["a"] Scenario.world_job Scenario.job_w1 Hwf
              ltac:(vm_compute; reflexivity)) as [H1 H2].
  split; [exact Hwf|]. split; [reflexivity|]. split; [exact H1|].
  split; [exact (H2 Scenario.job_w2 ltac:(vm_compute; reflexivity))|].
  vm_compute. reflexivity.
Defined.

(** ** Steps 6 to 9 *)

Lemma run_split (env : Env) (st : State) (cfg : Config) (req : PackageBuild) (w : world)
    (ctx : Ctx) (w1 : world) :
  prepare env st req w = (Ok ctx, w1) ->
  run env st cfg req w =
    let '(r, w2) := build_recipe env (work_dir ctx) (asset_dir ctx) (worktree_dir ctx)
                      (relative_path req) (log_file ctx) w1 in
    finish env cfg req ctx (match r with Ok _ => None | Err e => Some e end) w2.
Proof.
  intros H. unfold run, bind. rewrite H. unfold catch_err.
  by destruct (build_recipe _ _ _ _ _ _ w1) as [[u|e] w2].
Qed.

Lemma finish_cases (env : Env) (cfg : Config) (req : PackageBuild) (ctx : Ctx)
    (err : option Report) (w : world) :
  match compress_file env (log_file ctx) w with
  | (Err _, w3) => exists e', finish env cfg req ctx err w = (Err e', w3)
  | (Ok _, w3) =>
      match scan_collectables env (build_id req) (host_address cfg) (asset_dir ctx) w3 with
      | (Err _, w4) => exists e', finish env cfg req ctx err w = (Err e', w4)
      | (Ok cs, w4) =>
          match git_remove_worktree env (mirror_dir ctx) (worktree_dir ctx) w4 with
          | (Err _, w5) => exists e', finish env cfg req ctx err w = (Err e', w5)
          | (Ok _, w5) => finish env cfg req ctx err w = (Ok (err, cs), w5)
          end
      end
  end.
Proof.
  unfold finish, bind, context, ret.
  destruct (compress_file env (log_file ctx) w) as [[u|e] w3]; [|by eexists].
  destruct (scan_collectables _ _ _ _ w3) as [[cs|e] w4]; [|by eexists].
  destruct (git_remove_worktree _ _ _ w4) as [[u'|e] w5]; [done | by eexists].
Qed.

Lemma build_of_run (env : Env) (st : State) (cfg : Config) (req : PackageBuild)
    (w : world) (r : result (option Report * list Collectable)) (w' : world) :
  run env st cfg req w = (r, w') ->
  build env st cfg req w = (status_of (build_id req) r, w').
Proof. unfold build. by intros ->. Qed.

(** An [Ok] result of [run]: every stage but the builder succeeded, and the
    report carried is the builder's error, if any. *)
Lemma run_ok_stages (env : Env) (st : State) (cfg : Config) (req : PackageBuild)
    (w : world) (o : option Report) (cs : list Collectable) (w' : world) :
  run env st cfg req w = (Ok (o, cs), w') ->
  exists ctx w1 r w2 w3 w4,
    prepare env st req w = (Ok ctx, w1) /\
    build_recipe env (work_dir ctx) (asset_dir ctx) (worktree_dir ctx)
      (relative_path req) (log_file ctx) w1 = (r, w2) /\
    o = match r with Ok _ => None | Err e => Some e end /\
    compress_file env (log_file ctx) w2 = (Ok tt, w3) /\
    scan_collectables env (build_id req) (host_address cfg) (asset_dir ctx) w3 = (Ok cs, w4) /\
    git_remove_worktree env (mirror_dir ctx) (worktree_dir ctx) w4 = (Ok tt, w').
Proof.
  intros H. unfold run in H. apply bind_ok in H as (ctx & w1 & Hp & H).
  apply bind_ok in H as (o' & w2 & Hb & H). unfold catch_err in Hb.
  destruct (build_recipe _ _ _ _ _ _ w1) as [r w2'] eqn:Hbr.
  unfold finish in H.
  apply bind_ok in H as ([] & w3 & Hc & H). apply context_ok in Hc.
  apply bind_ok in H as (cs' & w4 & Hs & H). apply context_ok in Hs.
  apply bind_ok in H as ([] & w5 & Hr & H). apply context_ok in Hr.
  unfold ret in H. simplify_eq.
  exists ctx, w1, r, w2, w3, w4.
  by destruct r; simplify_eq.
Qed.

(** ** Claim C3 *)

(** C3: when the log compression of step 7 fails, [run] stops there (the
    world is the one the failed compression left: no scan, no worktree
    removal) and [build] sends [BuildFailed] with no collectables, whatever
    the outcome of the builder and whatever it produced. *)
Theorem compress_failure_aborts (env : Env) (st : State) (cfg : Config)
    (req : PackageBuild) (w : world) (ctx : Ctx) (w1 : world) (r : result unit)
    (w2 : world) (e : Report) (w3 : world) :
  prepare env st req w = (Ok ctx, w1) ->
  build_recipe env (work_dir ctx) (asset_dir ctx) (worktree_dir ctx)
    (relative_path req) (log_file ctx) w1 = (r, w2) ->
  compress_file env (log_file ctx) w2 = (Err e, w3) ->
  (exists e', run env st cfg req w = (Err e', w3)) /\
  build env st cfg req w = (BuildFailed (build_id req) [], w3).
Proof.
  intros Hp Hb Hc.
  pose proof (finish_cases env cfg req ctx (match r with Ok _ => None | Err e => Some e end) w2)
    as Hf.
  rewrite Hc in Hf. destruct Hf as [e' Hf].
  assert (run env st cfg req w = (Err e', w3)) as Hrun.
  { rewrite (run_split env st cfg req w ctx w1 Hp), Hb. exact Hf. }
  split; [by exists e'|]. by rewrite (build_of_run _ _ _ _ _ _ _ Hrun).
Qed.

Lemma compress_failure_aborts_witness :
  Scenario.gz_build.1 = Ok tt /\
  build Scenario.gz_env Scenario.state Scenario.config Scenario.req7 Scenario.world_gz_fault
  = (BuildFailed 7 [], Scenario.gz_w3).
Proof.
  split; [vm_compute; reflexivity|].
  exact (proj2 (compress_failure_aborts Scenario.gz_env Scenario.state Scenario.config
    Scenario.req7 Scenario.world_gz_fault Scenario.gz_ctx Scenario.gz_w1 Scenario.gz_build.1
    Scenario.gz_w2 Scenario.gz_e Scenario.gz_w3
    ltac:(vm_compute; reflexivity) ltac:(vm_compute; reflexivity)
    ltac:(vm_compute; reflexivity))).
Defined.

(** ** Claim C1 *)

Lemma strip_path_prefix_app (d r : path) : strip_path_prefix d (d ++ r) = Some r.
Proof.
  induction d as [|a d IH]; [done|]. simpl. rewrite bool_decide_eq_true_2 by done. done.
Qed.

Lemma dir_entries_elem (w : world) (d : path) (n : string) (v : node) :
  w_fs w !! (d ++ [n]) = Some v -> n ∈ dir_entries w d.
Proof.
  intros Hv. unfold dir_entries. apply list_elem_of_omap.
  exists (d ++ [n], v). split; [by apply elem_of_map_to_list|].
  simpl. by rewrite strip_path_prefix_app.
Qed.

Lemma gz_path_snoc (d : path) (f : string) : gz_path (d ++ [f]) = d ++ [f +:+ ".gz"].
Proof. unfold gz_path. by rewrite last_snoc, removelast_last. Qed.

(** After a successful compression the [.gz] sibling is a regular file. *)
Lemma compress_file_ok (env : Env) (d : path) (f : string) (w w' : world) (u : unit) :
  f <> f +:+ ".gz" ->
  compress_file env (d ++ [f]) w = (Ok u, w') ->
  exists c, w_fs w' !! (d ++ [f +:+ ".gz"]) = Some (File c).
Proof.
  intros Hf H. unfold compress_file in H. rewrite gz_path_snoc in H. peel H.
  unfold ret in H. simplify_eq.
  apply context_ok in Hs3.
  unfold write_file in Hs2. unfold remove_file in Hs3.
  destruct (lookup_node _ (d ++ [f +:+ ".gz"])) as [[|c0]|]; try discriminate.
  destruct (faulty _ OpWrite _); [discriminate|]. simplify_eq.
  destruct (lookup_node _ (d ++ [f])) as [[|c1]|]; try discriminate.
  destruct (faulty _ OpRemove _); [discriminate|]. simplify_eq. simpl.
  eexists. rewrite lookup_delete_ne; [by rewrite lookup_insert_eq|].
  intros Heq. apply app_inj_tail in Heq as [_ Heq]. by apply Hf.
Qed.

Lemma scan_entry_valid (env : Env) (id : N) (host : Uri) (ad : path) (n : string)
    (w : world) (o : option Collectable) (w' : world) :
  utf8_valid n = true ->
  scan_entry env id host ad n w = (Ok o, w') ->
  exists c, o = Some c /\ kind c = classify n /\
    parse_uri env (asset_uri_text id host n) = Some (c_uri c).
Proof.
  intros Hv H. unfold scan_entry in H. rewrite Hv in H.
  destruct (parse_uri env _) as [u|] eqn:Hu; [|discriminate].
  apply bind_ok in H as (sha & w1 & _ & H). unfold ret in H. simplify_eq.
  by eexists.
Qed.

Lemma scan_loop_ok (env : Env) (id : N) (host : Uri) (ad : path) (names : list string)
    (acc cs : list Collectable) (w w' : world) :
  scan_loop env id host ad names acc w = (Ok cs, w') ->
  (forall c, c ∈ acc -> c ∈ cs) /\
  (forall n, n ∈ names -> utf8_valid n = true ->
     exists c, c ∈ cs /\ kind c = classify n /\
       parse_uri env (asset_uri_text id host n) = Some (c_uri c)).
Proof.
  revert acc w. induction names as [|n names IH]; intros acc w H; simpl in H.
  - unfold ret in H. simplify_eq. split; [done | intros n Hn; set_solver].
  - apply bind_ok in H as (o & w1 & He & H). apply IH in H as [Hacc Hnames].
    split.
    + intros c Hc. apply Hacc. destruct o; [set_solver | done].
    + intros m [->|Hm]%elem_of_cons Hv; [|by apply Hnames].
      destruct (scan_entry_valid env id host ad n w o w1 Hv He) as (c & -> & Hk & Hu).
      exists c. split; [apply Hacc; set_solver | done].
Qed.

Lemma scan_collectables_ok (env : Env) (id : N) (host : Uri) (ad : path)
    (cs : list Collectable) (w w' : world) :
  scan_collectables env id host ad w = (Ok cs, w') ->
  forall n v, w_fs w !! (ad ++ [n]) = Some v -> utf8_valid n = true ->
    exists c, c ∈ cs /\ kind c = classify n /\
      parse_uri env (asset_uri_text id host n) = Some (c_uri c).
Proof.
  intros H n v Hn Hv. unfold scan_collectables in H.
  apply bind_ok in H as (names & w1 & Hr & H). apply context_ok in Hr.
  unfold read_dir in Hr.
  destruct (lookup_node w ad) as [[|c]|]; try discriminate.
  destruct (faulty w OpReadDir ad); [discriminate|]. simplify_eq.
  apply scan_loop_ok in H as [_ Hnames]. apply Hnames; [|done].
  by eapply dir_entries_elem.
Qed.

(** C1, as amended: when the builder of step 6 fails (spawn failure,
    non-zero exit, or failure to create the log file), [run] goes on with
    the compression of the log and the scan, on the world the builder left.
    If compression, scan and worktree removal all succeed, [build] sends
    [BuildFailed] with the scanned collectables, among which the compressed
    log [build.log.gz] as a [Log]; if one of them fails, it sends
    [BuildFailed] with no collectables. *)
Theorem builder_failure_still_collects (env : Env) (st : State) (cfg : Config)
    (req : PackageBuild) (w : world) (ctx : Ctx) (w1 : world) (e : Report) (w2 : world) :
  prepare env st req w = (Ok ctx, w1) ->
  build_recipe env (work_dir ctx) (asset_dir ctx) (worktree_dir ctx)
    (relative_path req) (log_file ctx) w1 = (Err e, w2) ->
  match compress_file env (log_file ctx) w2 with
  | (Err _, w3) => build env st cfg req w = (BuildFailed (build_id req) [], w3)
  | (Ok _, w3) =>
      match scan_collectables env (build_id req) (host_address cfg) (asset_dir ctx) w3 with
      | (Err _, w4) => build env st cfg req w = (BuildFailed (build_id req) [], w4)
      | (Ok cs, w4) =>
          (exists c, c ∈ cs /\ kind c = Log /\
             parse_uri env (asset_uri_text (build_id req) (host_address cfg) "build.log.gz")
             = Some (c_uri c)) /\
          match git_remove_worktree env (mirror_dir ctx) (worktree_dir ctx) w4 with
          | (Err _, w5) => build env st cfg req w = (BuildFailed (build_id req) [], w5)
          | (Ok _, w5) => build env st cfg req w = (BuildFailed (build_id req) cs, w5)
          end
      end
  end.
Proof.
  intros Hp Hb.
  pose proof (run_split env st cfg req w ctx w1 Hp) as Hrun. rewrite Hb in Hrun.
  pose proof (finish_cases env cfg req ctx (Some e) w2) as Hf.
  pose proof (prepare_ctx env st req w ctx w1 Hp) as (um & ? & ? & _ & _ & Hctx).
  assert (asset_dir ctx = root st ++ ["assets"; pretty (build_id req)]) as Had
    by (by rewrite Hctx).
  assert (log_file ctx = asset_dir ctx ++ ["build.log"]) as Hlog
    by (rewrite Hctx; simpl; by rewrite <- app_assoc).
  destruct (compress_file env (log_file ctx) w2) as [[u|ec] w3] eqn:Hc.
  2:{ destruct Hf as [e' Hf]. rewrite Hf in Hrun. by rewrite (build_of_run _ _ _ _ _ _ _ Hrun). }
  destruct (scan_collectables _ _ _ _ w3) as [[cs|es] w4] eqn:Hs.
  2:{ destruct Hf as [e' Hf]. rewrite Hf in Hrun. by rewrite (build_of_run _ _ _ _ _ _ _ Hrun). }
  split.
  - rewrite Hlog in Hc. apply compress_file_ok in Hc as [c Hgz]; [|done].
    destruct (scan_collectables_ok env _ _ _ cs w3 w4 Hs "build.log.gz" _ Hgz)
      as (c' & Hin & Hk & Hu); [done|].
    by exists c'.
  - destruct (git_remove_worktree _ _ _ w4) as [[u'|er] w5].
    + rewrite Hf in Hrun. by rewrite (build_of_run _ _ _ _ _ _ _ Hrun).
    + destruct Hf as [e' Hf]. rewrite Hf in Hrun. by rewrite (build_of_run _ _ _ _ _ _ _ Hrun).
Qed.

Lemma builder_failure_still_collects_witness :
  Scenario.bf_build.1 <> Ok tt /\
  (exists c, c ∈ Scenario.bf_cs /\ kind c = Log) /\
  (build Scenario.bf_env Scenario.state Scenario.config Scenario.req7 Scenario.world0).1
  = BuildFailed 7 Scenario.bf_cs.
Proof.
  pose proof (builder_failure_still_collects Scenario.bf_env Scenario.state Scenario.config
    Scenario.req7 Scenario.world0 Scenario.bf_ctx Scenario.bf_w1 Scenario.bf_e Scenario.bf_w2
    ltac:(vm_compute; reflexivity) ltac:(vm_compute; reflexivity)) as H.
  assert (E1 : compress_file Scenario.bf_env (log_file Scenario.bf_ctx) Scenario.bf_w2
               = (Ok tt, Scenario.bf_w3)) by (vm_compute; reflexivity).
  assert (E2 : scan_collectables Scenario.bf_env (build_id Scenario.req7)
                 (host_address Scenario.config) (asset_dir Scenario.bf_ctx) Scenario.bf_w3
               = (Ok Scenario.bf_cs, Scenario.bf_w4)) by (vm_compute; reflexivity).
  assert (E3 : git_remove_worktree Scenario.bf_env (mirror_dir Scenario.bf_ctx)
                 (worktree_dir Scenario.bf_ctx) Scenario.bf_w4
               = (Ok tt, (git_remove_worktree Scenario.bf_env (mirror_dir Scenario.bf_ctx)
                            (worktree_dir Scenario.bf_ctx) Scenario.bf_w4).2))
    by (vm_compute; reflexivity).
  rewrite E1, E2, E3 in H.
  destruct H as [(c & Hin & Hk & _) Hb].
  split; [vm_compute; discriminate|]. split; [exists c; split; assumption|].
  rewrite Hb. reflexivity.
Defined.

(** C1 fails as stated: the builder exits non-zero, and the compressed
    log cannot be created; the report is [BuildFailed] with no
    collectables, so without the log. *)
Lemma builder_failure_with_compress_fault :
  match prepare (Scenario.env false true) Scenario.state
          (Scenario.request 7 Scenario.repo_uri) Scenario.world_gz_fault with
  | (Ok ctx, w1) =>
      (build_recipe (Scenario.env false true) (work_dir ctx) (asset_dir ctx)
         (worktree_dir ctx) "recipe/stone.yaml" (log_file ctx) w1).1 <> Ok tt /\
      (build (Scenario.env false true) Scenario.state Scenario.config
         (Scenario.request 7 Scenario.repo_uri) Scenario.world_gz_fault).1
      = BuildFailed 7 []
  | _ => False
  end.
Proof. vm_compute. split; [discriminate | reflexivity]. Qed.

(** ** Claim C2 *)

(** C2 fails as stated: the scan of step 8 succeeds with a non-empty list
    of collectables, then removing the worktree fails; [build] sends
    [BuildFailed] with no collectables. *)
Lemma worktree_cleanup_failure_drops_collectables :
  Scenario.rm_prep.1 = Ok Scenario.rm_ctx /\
  Scenario.rm_scan.1 = Ok Scenario.rm_cs /\ Scenario.rm_cs <> [] /\
  Scenario.rm_remove.1 <> Ok tt /\
  (build Scenario.rm_env Scenario.state Scenario.config Scenario.req7 Scenario.world0).1
  = BuildFailed 7 [].
Proof.
  vm_compute. split; [reflexivity|]. split; [reflexivity|].
  split; [discriminate|]. split; [discriminate | reflexivity].
Qed.

(** C2, as amended: a failure in steps 1 to 5, like a failure of the
    worktree removal of step 9 after a successful scan, makes [build] send
    [BuildFailed] with no collectables; a [BuildFailed] message with a
    non-empty list of collectables is sent only when [run] returned
    [Ok (Some e, cs)], which happens exactly when the builder of step 6
    failed with [e] and the compression, a scan returning [cs] and the
    worktree removal of steps 7 to 9 all succeeded. *)
Theorem failed_report_collectables (env : Env) (st : State) (cfg : Config)
    (req : PackageBuild) (w : world) :
  (forall e w1, prepare env st req w = (Err e, w1) ->
     build env st cfg req w = (BuildFailed (build_id req) [], w1)) /\
  (forall ctx w1 r w2 w3 cs w4 e w5,
     prepare env st req w = (Ok ctx, w1) ->
     build_recipe env (work_dir ctx) (asset_dir ctx) (worktree_dir ctx)
       (relative_path req) (log_file ctx) w1 = (r, w2) ->
     compress_file env (log_file ctx) w2 = (Ok tt, w3) ->
     scan_collectables env (build_id req) (host_address cfg) (asset_dir ctx) w3 = (Ok cs, w4) ->
     git_remove_worktree env (mirror_dir ctx) (worktree_dir ctx) w4 = (Err e, w5) ->
     build env st cfg req w = (BuildFailed (build_id req) [], w5)) /\
  (forall cs, (build env st cfg req w).1 = BuildFailed (build_id req) cs -> cs <> [] ->
     exists e ctx w1 w2 w3 w4,
       (run env st cfg req w).1 = Ok (Some e, cs) /\
       prepare env st req w = (Ok ctx, w1) /\
       build_recipe env (work_dir ctx) (asset_dir ctx) (worktree_dir ctx)
         (relative_path req) (log_file ctx) w1 = (Err e, w2) /\
       compress_file env (log_file ctx) w2 = (Ok tt, w3) /\
       scan_collectables env (build_id req) (host_address cfg) (asset_dir ctx) w3
         = (Ok cs, w4) /\
       git_remove_worktree env (mirror_dir ctx) (worktree_dir ctx) w4
         = (Ok tt, (build env st cfg req w).2)) /\
  (forall ctx w1 e w2 w3 cs w4 w5,
     prepare env st req w = (Ok ctx, w1) ->
     build_recipe env (work_dir ctx) (asset_dir ctx) (worktree_dir ctx)
       (relative_path req) (log_file ctx) w1 = (Err e, w2) ->
     compress_file env (log_file ctx) w2 = (Ok tt, w3) ->
     scan_collectables env (build_id req) (host_address cfg) (asset_dir ctx) w3 = (Ok cs, w4) ->
     git_remove_worktree env (mirror_dir ctx) (worktree_dir ctx) w4 = (Ok tt, w5) ->
     build env st cfg req w = (BuildFailed (build_id req) cs, w5)).
Proof.
  split; [|split; [|split]].
  - intros e w1 Hp. apply (build_of_run _ _ _ _ _ (Err e)). unfold run, bind. by rewrite Hp.
  - intros ctx w1 r w2 w3 cs w4 e w5 Hp Hb Hc Hs Hr.
    pose proof (run_split env st cfg req w ctx w1 Hp) as Hrun. rewrite Hb in Hrun.
    pose proof (finish_cases env cfg req ctx
                  (match r with Ok _ => None | Err e => Some e end) w2) as Hf.
    rewrite Hc, Hs, Hr in Hf. destruct Hf as [e' Hf]. rewrite Hf in Hrun.
    by rewrite (build_of_run _ _ _ _ _ _ _ Hrun).
  - intros cs. unfold build.
    destruct (run env st cfg req w) as [[[[e|] cs']|e] w'] eqn:Hrun;
      simpl; intros Hm Hne; simplify_eq.
    destruct (run_ok_stages _ _ _ _ _ _ _ _ Hrun)
      as (ctx & w1 & r & w2 & w3 & w4 & Hp & Hb & Ho & Hc & Hs & Hr).
    destruct r as [u|e']; simplify_eq.
    by exists e', ctx, w1, w2, w3, w4.
  - intros ctx w1 e w2 w3 cs w4 w5 Hp Hb Hc Hs Hr.
    pose proof (run_split env st cfg req w ctx w1 Hp) as Hrun. rewrite Hb in Hrun.
    pose proof (finish_cases env cfg req ctx (Some e) w2) as Hf.
    rewrite Hc, Hs, Hr in Hf. rewrite Hf in Hrun.
    by rewrite (build_of_run _ _ _ _ _ _ _ Hrun).
Qed.

(** ** Claim C7 *)

Lemma keeps_ret {A} (a : A) : keeps (ret a).
Proof. intros w r w' H. by injection H as <- <-. Qed.

Lemma keeps_fail {A} (e : Report) : keeps (A:=A) (fail e).
Proof. intros w r w' H. by injection H as <- <-. Qed.

Lemma keeps_bind {A B} (m : M A) (k : A -> M B) :
  keeps m -> (forall a, keeps (k a)) -> keeps (bind m k).
Proof.
  intros Hm Hk w r w' H. unfold bind in H.
  destruct (m w) as [[a|e] w1] eqn:E.
  - rewrite (Hk a w1 r w' H). by apply (Hm w (Ok a) w1).
  - injection H as <- <-. by apply (Hm w (Err e) w1).
Qed.

Lemma keeps_context {A} (msg : string) (m : M A) : keeps m -> keeps (context msg m).
Proof.
  intros Hm w r w' H. unfold context in H.
  destruct (m w) as [[a|e] w1] eqn:E; injection H as <- <-; by eapply Hm.
Qed.

Ltac keeps_prim :=
  let w := fresh "w" in let r := fresh "r" in let w' := fresh "w'" in
  let H := fresh "H" in
  intros w r w' H; repeat case_match; simplify_eq; reflexivity.

Lemma keeps_create_dir (p : path) : keeps (create_dir p).
Proof. unfold create_dir. keeps_prim. Qed.

Lemma keeps_create_each (ps : list path) : keeps (create_each ps).
Proof.
  induction ps as [|p ps IH]; simpl; [apply keeps_ret|].
  apply keeps_bind; [apply keeps_create_dir | intros _; apply IH].
Qed.

Lemma keeps_remove_dir_all (p : path) : keeps (remove_dir_all p).
Proof. unfold remove_dir_all. keeps_prim. Qed.

Lemma keeps_recreate_dir (p : path) : keeps (recreate_dir p).
Proof.
  unfold recreate_dir. apply keeps_bind; [unfold get; keeps_prim|intros w0].
  apply keeps_bind; [|intros _; apply keeps_create_each].
  destruct (exists_path w0 p); [apply keeps_remove_dir_all | apply keeps_ret].
Qed.

Lemma keeps_create_file (p : path) : keeps (create_file p).
Proof. unfold create_file. keeps_prim. Qed.

Lemma keeps_write_file (p : path) (c : string) : keeps (write_file p c).
Proof. unfold write_file. keeps_prim. Qed.

Lemma keeps_create_boulder_config (wd : path) (rs : list Remote) :
  keeps (create_boulder_config wd rs).
Proof.
  unfold create_boulder_config.
  apply keeps_bind; [apply keeps_context, keeps_create_each | intros _].
  apply keeps_bind; [apply keeps_context | intros _; apply keeps_ret].
  apply keeps_bind; [apply keeps_create_file | intros _; apply keeps_write_file].
Qed.

Lemma keeps_resolve (env : Env) (st : State) (req : PackageBuild) :
  keeps (resolve env st req).
Proof.
  unfold resolve. destruct (parse_uri env (uri req)) as [u|]; [|apply keeps_fail].
  destruct (strip_slash (uri_path u)); [apply keeps_ret | apply keeps_fail].
Qed.

Lemma keeps_prepare_dirs (st : State) (req : PackageBuild) (u : Uri) (mirror : path) :
  keeps (prepare_dirs st req u mirror).
Proof.
  unfold prepare_dirs.
  apply keeps_bind; [|intros _].
  { destruct (parent mirror); [apply keeps_context, keeps_create_each | apply keeps_ret]. }
  apply keeps_bind; [apply keeps_context, keeps_recreate_dir | intros _].
  apply keeps_bind; [apply keeps_context, keeps_create_each | intros _].
  apply keeps_bind; [apply keeps_context, keeps_recreate_dir | intros _].
  apply keeps_ret.
Qed.

Lemma appends_of_keeps {A} (m : M A) : keeps m -> appends m.
Proof. intros Hm w r w' H. exists []. rewrite app_nil_r. by eapply Hm. Qed.

Lemma appends_bind {A B} (m : M A) (k : A -> M B) :
  appends m -> (forall a, appends (k a)) -> appends (bind m k).
Proof.
  intros Hm Hk w r w' H. unfold bind in H.
  destruct (m w) as [[a|e] w1] eqn:E.
  - destruct (Hm w (Ok a) w1 E) as [l1 H1]. destruct (Hk a w1 r w' H) as [l2 H2].
    exists (l1 ++ l2). by rewrite H2, H1, app_assoc.
  - injection H as <- <-. by apply (Hm w (Err e) w1).
Qed.

Lemma appends_context {A} (msg : string) (m : M A) : appends m -> appends (context msg m).
Proof.
  intros Hm w r w' H. unfold context in H.
  destruct (m w) as [[a|e] w1] eqn:E; injection H as <- <-; by eapply Hm.
Qed.

Lemma appends_spawn (env : Env) (c : cmd) : appends (spawn env c).
Proof.
  intros w r w' H. unfold spawn in H. destruct (run_cmd env c (w_fs w)) as [[|] fs'];
    injection H as <- <-; by exists [c].
Qed.

(** Steps 4 and 5 only add commands to the record. *)
Lemma appends_checkout_config (env : Env) (req : PackageBuild) (ctx : Ctx) :
  appends (let? _ := context "checkout commit as worktree"
                       (git_checkout_worktree env (mirror_dir ctx) (worktree_dir ctx)
                          (commit_ref req)) in
           let? _ := context "create boulder config"
                       (create_boulder_config (work_dir ctx) (remotes req)) in
           ret ctx).
Proof.
  apply appends_bind; [apply appends_context, appends_spawn | intros _].
  apply appends_of_keeps, keeps_bind;
    [apply keeps_context, keeps_create_boulder_config | intros _; apply keeps_ret].
Qed.

(** A spawned command followed by a computation that only appends. *)
Lemma bind_spawn_trace {B} (env : Env) (c : cmd) (k : unit -> M B) (w : world) :
  appends (k tt) ->
  exists rest, w_spawned (bind (spawn env c) k w).2 = w_spawned w ++ c :: rest.
Proof.
  intros Hk. unfold bind, spawn.
  destruct (run_cmd env c (w_fs w)) as [[|] fs'].
  - destruct (k tt (mkWorld fs' (w_faults w) (w_spawned w ++ [c]))) as [r w'] eqn:E.
    destruct (Hk _ _ _ E) as [l Hl]. exists l. simpl. rewrite Hl. simpl.
    by rewrite <- app_assoc.
  - by exists [].
Qed.

Lemma bind_Ok_eq {A B} (m : M A) (k : A -> M B) (w : world) (a : A) (w1 : world) :
  m w = (Ok a, w1) -> bind m k w = k a w1.
Proof. unfold bind. by intros ->. Qed.

(** C7: after steps 1 and 2, the first command [prepare] spawns is
    [git remote update] on the mirror directory when that path exists in
    the world left by step 2, and a mirror clone of the request's URI into
    it otherwise; the choice reads nothing but that existence. *)
Theorem mirror_create_or_update (env : Env) (st : State) (req : PackageBuild) (w : world)
    (um : Uri * path) (w1 : world) (ctx : Ctx) (w2 : world) :
  resolve env st req w = (Ok um, w1) ->
  prepare_dirs st req um.1 um.2 w1 = (Ok ctx, w2) ->
  ctx_uri ctx = um.1 /\ mirror_dir ctx = um.2 /\
  exists rest,
    w_spawned (prepare env st req w).2 =
    w_spawned w ++ (if exists_path w2 um.2 then GitRemoteUpdate um.2
                    else GitMirror um.1 um.2) :: rest.
Proof.
  intros Hr Hd.
  pose proof (prepare_dirs_ctx _ _ _ _ _ _ _ Hd) as Hctx.
  assert (Hs1 : w_spawned w1 = w_spawned w) by (eapply keeps_resolve; eauto).
  assert (Hs2 : w_spawned w2 = w_spawned w1) by (eapply keeps_prepare_dirs; eauto).
  split; [by rewrite Hctx|]. split; [by rewrite Hctx|].
  unfold prepare. rewrite (bind_Ok_eq _ _ _ _ _ Hr). cbv beta.
  rewrite (bind_Ok_eq _ _ _ _ _ Hd). cbv beta.
  rewrite <- Hs1, <- Hs2.
  assert (Hc : forall c m, m = spawn env c ->
    exists rest, w_spawned (bind m (fun _ =>
      let? _ := context "checkout commit as worktree"
                  (git_checkout_worktree env (mirror_dir ctx) (worktree_dir ctx)
                     (commit_ref req)) in
      let? _ := context "create boulder config"
                  (create_boulder_config (work_dir ctx) (remotes req)) in
      ret ctx) w2).2 = w_spawned w2 ++ c :: rest).
  { intros c m ->. apply bind_spawn_trace, appends_checkout_config. }
  unfold sync_mirror. subst ctx. cbn [mirror_dir ctx_uri].
  change (bind (bind get ?f) ?k w2) with (bind (f w2) k w2). cbv beta.
  destruct (exists_path w2 um.2); apply Hc; reflexivity.
Qed.

Lemma mirror_create_or_update_witness :
  exists_path Scenario.mr_w2 Scenario.mr_um.2 = true /\
  exists rest,
    w_spawned (prepare Scenario.mr_env Scenario.state Scenario.req7 Scenario.world_mirrored).2 =
    w_spawned Scenario.world_mirrored ++
      (if exists_path Scenario.mr_w2 Scenario.mr_um.2 then GitRemoteUpdate Scenario.mr_um.2
       else GitMirror Scenario.mr_um.1 Scenario.mr_um.2) :: rest.
Proof.
  split; [vm_compute; reflexivity|].
  exact (proj2 (proj2 (mirror_create_or_update Scenario.mr_env Scenario.state Scenario.req7
    Scenario.world_mirrored Scenario.mr_um Scenario.mr_w1
    (Scenario.ctx_of (prepare_dirs Scenario.state Scenario.req7 Scenario.mr_um.1
                        Scenario.mr_um.2 Scenario.mr_w1))
    Scenario.mr_w2 ltac:(vm_compute; reflexivity) ltac:(vm_compute; reflexivity)))).
Defined.

(* ------------------------------------------------------------------ *)
(** ** Further properties of the build pipeline, the shared map and the remotes *)

Lemma string_length_app (a b : string) : String.length (a +:+ b) = String.length a + String.length b.
Proof. induction a as [|c a IH]; [done|]. rewrite append_cons. simpl. by rewrite IH. Qed.

Lemma string_app_neq (l s : string) : s <> EmptyString -> l <> l +:+ s.
Proof.
  intros Hs Heq. apply (f_equal String.length) in Heq. rewrite string_length_app in Heq.
  destruct s; [done|]. simpl in Heq. lia.
Qed.

Lemma gz_path_neq (p : path) : gz_path p <> p.
Proof.
  unfold gz_path. destruct (last p) as [l|] eqn:Hl.
  - intros Heq. destruct p as [|x p'] using rev_ind; [done|].
    rewrite last_snoc in Hl. simplify_eq. rewrite removelast_last in Heq.
    apply app_inj_tail in Heq as [_ Heq]. by apply (string_app_neq l ".gz").
  - apply last_None in Hl as ->. done.
Qed.

Lemma lookup_node_cons (w : world) (p : path) : p <> [] -> lookup_node w p = w_fs w !! p.
Proof. by destruct p. Qed.

(** One entry of the scan: reads only. *)
Lemma scan_entry_readonly (env : Env) (id : N) (host : Uri) (ad : path) (n : string)
    (w : world) (r : result (option Collectable)) (w' : world) :
  scan_entry env id host ad n w = (r, w') -> w' = w.
Proof.
  unfold scan_entry, compute_sha256, bind, context, open_file, read_file, ret, fail.
  intros H. repeat case_match; simplify_eq; done.
Qed.

Lemma scan_entry_result (env : Env) (id : N) (host : Uri) (ad : path) (n : string)
    (w : world) (o : option Collectable) (w' : world) :
  scan_entry env id host ad n w = (Ok o, w') ->
  if utf8_valid n then
    exists c, o = Some c /\ kind c = classify n /\
      parse_uri env (asset_uri_text id host n) = Some (c_uri c) /\
      exists content, w_fs w !! (ad ++ [n]) = Some (File content) /\
                      sha256sum c = sha256_hex env content
  else o = None.
Proof.
  unfold scan_entry. destruct (utf8_valid n); [|unfold ret; by intros [= <- _]].
  destruct (parse_uri env _) as [u|] eqn:Hu; [|discriminate].
  unfold compute_sha256, bind, context, open_file, read_file, ret.
  intros H. repeat case_match; simplify_eq.
  rewrite !lookup_node_cons in * by (by destruct ad). simplify_eq.
  eexists; split; [done|].
  split; [done|]. split; [done|]. by eexists.
Qed.

Lemma scan_loop_result (env : Env) (id : N) (host : Uri) (ad : path) (names : list string)
    (acc cs : list Collectable) (w w' : world) :
  scan_loop env id host ad names acc w = (Ok cs, w') ->
  w' = w /\ exists cs', cs = acc ++ cs' /\
  Forall2 (fun n c => kind c = classify n /\
             parse_uri env (asset_uri_text id host n) = Some (c_uri c) /\
             exists content, w_fs w !! (ad ++ [n]) = Some (File content) /\
                             sha256sum c = sha256_hex env content)
          (filter (fun n => utf8_valid n = true) names) cs'.
Proof.
  revert acc w. induction names as [|n names IH]; intros acc w H; simpl in H.
  - unfold ret in H. simplify_eq. split; [done|]. exists []. by rewrite app_nil_r.
  - apply bind_ok in H as (o & w1 & He & H).
    pose proof (scan_entry_readonly _ _ _ _ _ _ _ _ He) as ->.
    apply scan_entry_result in He.
    apply IH in H as [-> (cs' & -> & Hf)]. split; [done|].
    rewrite filter_cons. destruct (utf8_valid n) eqn:Hv.
    + destruct He as (c & -> & Hc). rewrite decide_True by done.
      exists (c :: cs'). split; [by rewrite <- app_assoc|]. by constructor.
    + subst o. rewrite decide_False by done. by exists cs'.
Qed.

Lemma scan_loop_err_readonly (env : Env) (id : N) (host : Uri) (ad : path)
    (names : list string) (acc : list Collectable) (w : world) (e : Report) (w' : world) :
  scan_loop env id host ad names acc w = (Err e, w') -> w' = w.
Proof.
  revert acc w. induction names as [|n names IH]; intros acc w H; simpl in H.
  - discriminate.
  - unfold bind in H. destruct (scan_entry _ _ _ _ _ w) as [[o|e'] w1] eqn:He;
      apply scan_entry_readonly in He as ->; [by eapply IH | congruence].
Qed.

(** X1: scan is read-only; on success one collectable per UTF-8 entry, in
    directory order, with kind, URI and digest of that entry. *)
Theorem scan_collectables_entries (env : Env) (id : N) (host : Uri) (ad : path)
    (w : world) (r : result (list Collectable)) (w' : world) :
  scan_collectables env id host ad w = (r, w') ->
  w' = w /\
  forall cs, r = Ok cs ->
  Forall2 (fun n c => kind c = classify n /\
             parse_uri env (asset_uri_text id host n) = Some (c_uri c) /\
             exists content, w_fs w !! (ad ++ [n]) = Some (File content) /\
                             sha256sum c = sha256_hex env content)
          (filter (fun n => utf8_valid n = true) (dir_entries w ad)) cs.
Proof.
  unfold scan_collectables, bind, context, read_dir.
  destruct (lookup_node w ad) as [[|c]|]; [|intros [= <- <-]; by split..].
  destruct (faulty w OpReadDir ad); [intros [= <- <-]; by split|].
  destruct (scan_loop _ _ _ _ _ [] w) as [[cs|e] w1] eqn:Hl; intros [= <- <-].
  - apply scan_loop_result in Hl as [-> (cs' & -> & Hf)]. split; [done|].
    by intros ? [= <-].
  - apply scan_loop_err_readonly in Hl as ->. by split.
Qed.

Lemma scan_entry_dir (env : Env) (id : N) (host : Uri) (ad : path) (n : string) (w : world) :
  utf8_valid n = true -> w_fs w !! (ad ++ [n]) = Some Dir ->
  exists e, scan_entry env id host ad n w = (Err e, w).
Proof.
  intros Hv Hd. unfold scan_entry. rewrite Hv.
  destruct (parse_uri env _); [|by eexists].
  unfold compute_sha256, bind, context, open_file, read_file.
  rewrite lookup_node_cons by (by destruct ad). rewrite Hd.
  destruct (faulty w OpOpen _); [by eexists|].
  rewrite lookup_node_cons, Hd by (by destruct ad). by eexists.
Qed.

Lemma scan_loop_dir (env : Env) (id : N) (host : Uri) (ad : path) (n : string)
    (names : list string) (acc : list Collectable) (w : world) :
  utf8_valid n = true -> w_fs w !! (ad ++ [n]) = Some Dir -> n ∈ names ->
  exists e, scan_loop env id host ad names acc w = (Err e, w).
Proof.
  intros Hv Hd. revert acc. induction names as [|m names IH]; intros acc Hin;
    [by apply elem_of_nil in Hin|].
  simpl. unfold bind.
  destruct (decide (m = n)) as [->|Hne].
  - destruct (scan_entry_dir env id host ad n w Hv Hd) as [e ->]. by eexists.
  - apply elem_of_cons in Hin as [?|Hin]; [done|].
    destruct (scan_entry _ _ _ _ m w) as [[o|e] w1] eqn:He;
      pose proof (scan_entry_readonly _ _ _ _ _ _ _ _ He) as ->; [|by eexists].
    by apply IH.
Qed.

(** X2: a subdirectory with a UTF-8 name in the asset directory makes the
    scan fail. *)
Theorem scan_collectables_subdir_fails (env : Env) (id : N) (host : Uri) (ad : path)
    (n : string) (w : world) :
  utf8_valid n = true -> w_fs w !! (ad ++ [n]) = Some Dir ->
  exists e, scan_collectables env id host ad w = (Err e, w).
Proof.
  intros Hv Hd. unfold scan_collectables, bind, context, read_dir.
  destruct (lookup_node w ad) as [[|c]|]; [|by eexists..].
  destruct (faulty w OpReadDir ad); [by eexists|].
  destruct (scan_loop_dir env id host ad n (dir_entries w ad) [] w Hv Hd) as [e ->];
    [by eapply dir_entries_elem|]. by eexists.
Qed.


Lemma bind_err {A B} (m : M A) (k : A -> M B) (w : world) (e : Report) (w' : world) :
  bind m k w = (Err e, w') ->
  (exists e0, m w = (Err e0, w')) \/ (exists a w1, m w = (Ok a, w1) /\ k a w1 = (Err e, w')).
Proof.
  unfold bind. destruct (m w) as [[a|e0] w1]; intros H; [right; eauto | left; simplify_eq; eauto].
Qed.

Lemma context_err {A} (msg : string) (m : M A) (w : world) (e : Report) (w' : world) :
  context msg m w = (Err e, w') -> exists e0, m w = (Err e0, w').
Proof. unfold context. destruct (m w) as [[a|e0] w1]; intros H; simplify_eq; eauto. Qed.

Lemma open_file_same (p : path) (w : world) (r : result unit) (w' : world) :
  open_file p w = (r, w') -> w' = w.
Proof. unfold open_file. intros H. repeat case_match; by simplify_eq. Qed.

Lemma read_file_same (p : path) (w : world) (r : result string) (w' : world) :
  read_file p w = (r, w') -> w' = w /\ forall c, r = Ok c -> lookup_node w p = Some (File c).
Proof.
  unfold read_file. intros H. repeat case_match; simplify_eq; split; try done;
    intros ? Heq; simplify_eq; done.
Qed.

Lemma create_file_eff (p : path) (w : world) (r : result unit) (w' : world) :
  create_file p w = (r, w') ->
  match r with
  | Ok _ => w' = set_fs w (<[p := File EmptyString]> (w_fs w))
  | Err _ => w' = w
  end.
Proof. unfold create_file. intros H. repeat case_match; by simplify_eq. Qed.

Lemma write_file_eff (p : path) (c : string) (w : world) (r : result unit) (w' : world) :
  write_file p c w = (r, w') ->
  match r with
  | Ok _ => w' = set_fs w (<[p := File c]> (w_fs w))
  | Err _ => w' = w
  end.
Proof. unfold write_file. intros H. repeat case_match; by simplify_eq. Qed.

Lemma remove_file_eff (p : path) (w : world) (r : result unit) (w' : world) :
  remove_file p w = (r, w') ->
  match r with
  | Ok _ => w' = set_fs w (delete p (w_fs w)) /\ exists c, lookup_node w p = Some (File c)
  | Err _ => w' = w
  end.
Proof. unfold remove_file. intros H. repeat case_match; simplify_eq; eauto. Qed.

Lemma gz_path_nonempty (p : path) : gz_path p <> [].
Proof. unfold gz_path. destruct (last p); [|done]. intros H. by apply app_eq_nil in H as [_ ?]. Qed.

(** X3: compression moves the log: the plain file is gone, its gzip sits
    at the [.gz] path, and nothing else changes. *)
Theorem compress_file_moves (env : Env) (p : path) (c : string) (w : world) (u : unit)
    (w' : world) :
  w_fs w !! p = Some (File c) ->
  compress_file env p w = (Ok u, w') ->
  w_fs w' !! p = None /\ w_fs w' !! gz_path p = Some (File (gzip env c)) /\
  (forall q, q <> p -> q <> gz_path p -> w_fs w' !! q = w_fs w !! q) /\
  w_spawned w' = w_spawned w.
Proof.
  intros Hc H. unfold compress_file in H. peel H. unfold ret in H. simplify_eq.
  apply context_ok, open_file_same in Hs. subst.
  apply context_ok, create_file_eff in Hs0. subst.
  apply read_file_same in Hs1 as [-> Hr]. specialize (Hr _ eq_refl).
  apply write_file_eff in Hs2. subst.
  apply context_ok, remove_file_eff in Hs3 as [-> _].
  pose proof (gz_path_neq p) as Hne.
  assert (p <> []) as Hp.
  { intros ->. simpl in Hr. discriminate. }
  rewrite lookup_node_cons in Hr by done. simpl in Hr.
  rewrite lookup_insert_ne in Hr by done. rewrite Hc in Hr. simplify_eq.
  simpl. split; [by rewrite lookup_delete_eq|].
  split; [by rewrite lookup_delete_ne, lookup_insert_eq|].
  split; [|done]. intros q Hq1 Hq2.
  rewrite lookup_delete_ne by done. rewrite !lookup_insert_ne by done. done.
Qed.

(** X4: a failed compression never loses the plain log. *)
Theorem compress_file_failure_keeps_log (env : Env) (p : path) (c : string) (w : world)
    (e : Report) (w' : world) :
  w_fs w !! p = Some (File c) ->
  compress_file env p w = (Err e, w') ->
  w_fs w' !! p = Some (File c).
Proof.
  intros Hc H. unfold compress_file in H.
  pose proof (gz_path_neq p) as Hne.
  apply bind_err in H as [[e0 H]|(? & w1 & H1 & H)].
  { apply context_err in H as [? H]. apply open_file_same in H. by subst. }
  apply context_ok, open_file_same in H1. subst w1.
  apply bind_err in H as [[e0 H]|(? & w2 & H2 & H)].
  { apply context_err in H as [? H]. apply create_file_eff in H. by subst. }
  apply context_ok, create_file_eff in H2. subst w2.
  assert (Hc2 : w_fs (set_fs w (<[gz_path p := File EmptyString]> (w_fs w))) !! p = Some (File c)).
  { simpl. by rewrite lookup_insert_ne. }
  apply bind_err in H as [[e0 H]|(plain & w3 & H3 & H)].
  { apply read_file_same in H as [-> _]. done. }
  apply read_file_same in H3 as [-> _].
  apply bind_err in H as [[e0 H]|(? & w4 & H4 & H)].
  { apply write_file_eff in H. by subst. }
  apply write_file_eff in H4. subst w4.
  assert (Hc4 : w_fs (set_fs (set_fs w (<[gz_path p := File EmptyString]> (w_fs w)))
                  (<[gz_path p := File (gzip env plain)]>
                     (w_fs (set_fs w (<[gz_path p := File EmptyString]> (w_fs w)))))) !! p
                = Some (File c)).
  { simpl. by rewrite !lookup_insert_ne. }
  apply bind_err in H as [[e0 H]|(? & w5 & H5 & H)].
  { apply context_err in H as [? H]. apply remove_file_eff in H. by subst. }
  unfold ret in H. discriminate.
Qed.


Lemma create_dir_eff (q : path) (w : world) (r : result unit) (w' : world) :
  create_dir q w = (r, w') ->
  w' = w \/ (r = Ok tt /\ w_fs w !! q = None /\ w' = set_fs w (<[q := Dir]> (w_fs w))).
Proof.
  unfold create_dir. destruct (lookup_node w q) as [[|c]|] eqn:Hl; intros H; simplify_eq.
  - by left.
  - by left.
  - destruct (faulty w OpCreateDir q); simplify_eq; [by left|].
    right. split; [done|]. split; [|done]. destruct q; [done|]. done.
Qed.

(** [create_each] only adds directories, at the listed paths. *)
Lemma create_each_eff (ps : list path) (w : world) (r : result unit) (w' : world) :
  create_each ps w = (r, w') ->
  (forall q n, w_fs w !! q = Some n -> w_fs w' !! q = Some n) /\
  (forall q, w_fs w' !! q <> w_fs w !! q ->
     w_fs w !! q = None /\ w_fs w' !! q = Some Dir /\ q ∈ ps) /\
  w_faults w' = w_faults w /\ w_spawned w' = w_spawned w.
Proof.
  revert w. induction ps as [|p ps IH]; intros w H; simpl in H.
  - unfold ret in H. simplify_eq. split; [done|]. split; [by intros q []|]. done.
  - unfold bind in H. destruct (create_dir p w) as [[u|e] w1] eqn:Hc.
    + apply create_dir_eff in Hc.
      apply IH in H as (Hm & Hch & Hf & Hs).
      destruct Hc as [->|(_ & Hnone & ->)].
      * split; [done|]. split; [|done]. intros q Hq.
        destruct (Hch q Hq) as (? & ? & ?). split; [done|]. split; [done|]. set_solver.
      * simpl in *. split.
        { intros q n Hq. apply Hm. rewrite lookup_insert_ne; [done|]. congruence. }
        split; [|done]. intros q Hq.
        destruct (decide (q = p)) as [->|Hne].
        -- split; [done|]. split; [|set_solver].
           apply Hm. by rewrite lookup_insert_eq.
        -- destruct (Hch q) as (Ha & Hb & Hc); [by rewrite lookup_insert_ne|].
           rewrite lookup_insert_ne in Ha by done. split; [done|]. split; [done|]. set_solver.
    + injection H as <- <-. apply create_dir_eff in Hc as [->|(? & _)]; [by split|done].
Qed.

Lemma ancestors_nonempty (p q : path) : q ∈ ancestors p -> q <> [].
Proof.
  unfold ancestors. intros (i & -> & Hi)%list_elem_of_fmap. apply elem_of_seq in Hi.
  intros Ht. apply (f_equal length) in Ht. rewrite length_take in Ht. simpl in Ht. lia.
Qed.

(** X5: [ensure_dir_exists] only adds directories on the way to [p]. *)
Theorem ensure_dir_exists_adds_dirs (p : path) (w : world) (r : result unit) (w' : world) :
  ensure_dir_exists p w = (r, w') ->
  (forall q n, w_fs w !! q = Some n -> w_fs w' !! q = Some n) /\
  (forall q, w_fs w' !! q <> w_fs w !! q ->
     w_fs w !! q = None /\ w_fs w' !! q = Some Dir /\ q ∈ ancestors p) /\
  (r = Ok tt -> forall q, q ∈ ancestors p -> is_dir w' q = true).
Proof.
  unfold ensure_dir_exists, create_dir_all. intros H.
  pose proof (create_each_eff _ _ _ _ H) as (Hm & Hch & _).
  split; [done|]. split; [done|]. intros -> q Hq.
  apply create_each_ok in H as [Hin _]. unfold is_dir. by rewrite Hin.
Qed.

(** X6: a regular file on the way to [p] makes [ensure_dir_exists] fail. *)
Theorem ensure_dir_exists_file_in_way (p q : path) (c : string) (w : world) :
  q ∈ ancestors p -> w_fs w !! q = Some (File c) ->
  exists e, (ensure_dir_exists p w).1 = Err e.
Proof.
  intros Hq Hf. destruct (ensure_dir_exists p w) as [[u|e] w'] eqn:H; [|by eexists].
  exfalso. unfold ensure_dir_exists, create_dir_all in H.
  pose proof (create_each_eff _ _ _ _ H) as (Hm & _).
  apply create_each_ok in H as [Hin _]. specialize (Hin q Hq).
  rewrite lookup_node_cons in Hin by (by eapply ancestors_nonempty).
  rewrite (Hm q _ Hf) in Hin. discriminate.
Qed.

Lemma wf_take_dir (w : world) (p : path) :
  fs_wf w -> is_dir w p = true -> forall k, is_dir w (take (length p - k) p) = true.
Proof.
  intros Hwf Hp k. induction k as [|k IH].
  - by rewrite Nat.sub_0_r, take_ge by lia.
  - destruct (decide (length p - k = 0)) as [Hz|Hnz].
    + replace (length p - S k) with 0 by lia. done.
    + destruct (lookup_lt_is_Some_2 p (length p - S k)) as [x Hx]; [lia|].
      replace (length p - k) with (S (length p - S k)) in IH by lia.
      rewrite (take_S_r _ _ x Hx) in IH.
      unfold is_dir in IH. rewrite lookup_node_cons in IH
        by (intros Ht; by apply app_eq_nil in Ht as [_ ?]).
      destruct (w_fs w !! (take (length p - S k) p ++ [x])) as [n|] eqn:Hn; [|done].
      pose proof (Hwf _ _ Hn) as Hd. rewrite removelast_last in Hd. apply Hd.
      intros Ht; by apply app_eq_nil in Ht as [_ ?].
Qed.

Lemma create_each_dirs (ps : list path) (w : world) :
  (forall q, q ∈ ps -> is_dir w q = true) -> create_each ps w = (Ok tt, w).
Proof.
  induction ps as [|q ps IH]; intros Hd; [done|]. simpl. unfold bind, create_dir.
  assert (Hq : is_dir w q = true) by (apply Hd; by left). unfold is_dir in Hq.
  destruct (lookup_node w q) as [[|c]|]; try discriminate.
  apply IH. intros q' Hq'. apply Hd. by right.
Qed.

(** X7: on a well-formed disk [ensure_dir_exists] of an existing directory
    succeeds and changes nothing. *)
Theorem ensure_dir_exists_existing (p : path) (w : world) :
  fs_wf w -> is_dir w p = true -> ensure_dir_exists p w = (Ok tt, w).
Proof.
  intros Hwf Hp. apply create_each_dirs. unfold ancestors.
  intros q (i & -> & Hi)%list_elem_of_fmap. apply elem_of_seq in Hi.
  replace i with (length p - (length p - i)) by lia. by apply wf_take_dir.
Qed.

Lemma remove_dir_all_eff (p : path) (w : world) (r : result unit) (w' : world) :
  remove_dir_all p w = (r, w') ->
  forall q, starts_with_path p q = false -> w_fs w' !! q = w_fs w !! q.
Proof.
  unfold remove_dir_all. intros H q Hq. repeat case_match; simplify_eq; try done.
  simpl. destruct (w_fs w !! q) as [n|] eqn:Hn.
  - apply map_lookup_filter_Some_2; [done|]. done.
  - apply map_lookup_filter_None_2. by left.
Qed.

(** X8: outside [p], [recreate_dir p] changes nothing but adding missing
    directories on the way to [p]. *)
Theorem recreate_dir_outside (p : path) (w : world) (r : result unit) (w' : world) :
  recreate_dir p w = (r, w') ->
  forall q, starts_with_path p q = false ->
    w_fs w' !! q = w_fs w !! q \/
    (w_fs w !! q = None /\ w_fs w' !! q = Some Dir /\ q ∈ ancestors p).
Proof.
  unfold recreate_dir, get, bind. intros H q Hq.
  destruct ((if exists_path w p then remove_dir_all p else ret tt) w) as [[u|e] w2] eqn:Hr.
  - assert (w_fs w2 !! q = w_fs w !! q) as Hw2.
    { destruct (exists_path w p); [by eapply remove_dir_all_eff|]. unfold ret in Hr. by simplify_eq. }
    apply create_each_eff in H as (_ & Hch & _).
    destruct (decide (w_fs w' !! q = w_fs w2 !! q)) as [He|He]; [left; congruence|].
    right. rewrite <- Hw2. by apply Hch.
  - simplify_eq. left.
    destruct (exists_path w p); [by eapply remove_dir_all_eff|]. unfold ret in Hr. by simplify_eq.
Qed.

(** X9: [recreate_dir] of a regular file fails without touching the disk. *)
Theorem recreate_dir_regular_file (p : path) (c : string) (w : world) :
  p <> [] -> w_fs w !! p = Some (File c) ->
  recreate_dir p w = (Err ["Not a directory"], w).
Proof.
  intros Hp Hf. unfold recreate_dir, get, bind, exists_path, remove_dir_all.
  rewrite !lookup_node_cons, Hf by done. simpl. rewrite lookup_node_cons, Hf by done. done.
Qed.

(** X10: no log file, no builder; once the log is created, a failed
    duplication of its handle stops [build_recipe] before the builder runs;
    otherwise the builder runs once, from the worktree, with the fresh empty
    log, and [build_recipe] succeeds exactly when it does. *)
Theorem build_recipe_runs_builder (env : Env) (wd ad wtd : path) (rp : string) (log : path)
    (w : world) :
  (forall e w1, create_file log w = (Err e, w1) ->
     build_recipe env wd ad wtd rp log w = (Err ("create log file" :: e), w)) /\
  (forall u w1, create_file log w = (Ok u, w1) ->
     w_fs w1 !! log = Some (File EmptyString) /\
     (faulty w OpClone log = true ->
        build_recipe env wd ad wtd rp log w = (Err ["Too many open files"], w1)) /\
     (faulty w OpClone log = false ->
        w_spawned (build_recipe env wd ad wtd rp log w).2
          = w_spawned w ++ [Sudo (boulder_args wd ad rp) wtd log] /\
        ((build_recipe env wd ad wtd rp log w).1 = Ok tt <->
         (run_cmd env (Sudo (boulder_args wd ad rp) wtd log) (w_fs w1)).1 = true))).
Proof.
  split.
  - intros e w1 Hc. pose proof (create_file_eff _ _ _ _ Hc) as ->.
    unfold build_recipe, bind, context. by rewrite Hc.
  - intros u w1 Hc. pose proof (create_file_eff _ _ _ _ Hc) as Hw1. simpl in Hw1.
    unfold build_recipe, bind, context. rewrite Hc. subst w1.
    split; [simpl; by rewrite lookup_insert_eq|].
    assert (Hfe : faulty (set_fs w (<[log := File EmptyString]> (w_fs w))) OpClone log
                  = faulty w OpClone log) by reflexivity.
    unfold try_clone. rewrite Hfe.
    split; intros Hf; rewrite Hf; [done|].
    unfold spawn. destruct (run_cmd _ _ _) as [[|] fs']; simpl; split; try done.
Qed.

Lemma join_config_dir (wd : path) :
  join wd "etc/boulder/profile.d" = wd ++ ["etc"; "boulder"; "profile.d"].
Proof. reflexivity. Qed.

Lemma join_config_file (d : path) : join d "avalanche.yaml" = d ++ ["avalanche.yaml"].
Proof. reflexivity. Qed.

(** X11: the boulder config written is read back as the rendered text, in a
    directory that exists. *)
Theorem create_boulder_config_writes (wd : path) (rs : list Remote) (w : world) (u : unit)
    (w' : world) :
  create_boulder_config wd rs w = (Ok u, w') ->
  is_dir w' (wd ++ ["etc"; "boulder"; "profile.d"]) = true /\
  read_file (wd ++ ["etc"; "boulder"; "profile.d"; "avalanche.yaml"]) w'
  = (Ok (render_config rs), w').
Proof.
  unfold create_boulder_config. rewrite join_config_dir, join_config_file.
  intros H. peel H. unfold ret in H. simplify_eq.
  apply context_ok in Hs. apply context_ok in Hs0.
  unfold ensure_dir_exists in Hs. apply create_dir_all_ok in Hs as [Hd _].
  unfold fs_write in Hs0. apply bind_ok in Hs0 as (? & w2 & Hc & Hw).
  apply create_file_eff in Hc. apply write_file_eff in Hw. subst.
  rewrite <- app_assoc. simpl.
  assert (wd ++ ["etc"; "boulder"; "profile.d"] <> wd ++ ["etc"; "boulder"; "profile.d"; "avalanche.yaml"])
    as Hne.
  { intros Heq. apply (f_equal length) in Heq. rewrite !length_app in Heq. simpl in Heq. lia. }
  split.
  - unfold is_dir in *. rewrite !lookup_node_cons in * by (by destruct wd).
    simpl. rewrite !lookup_insert_ne by done. done.
  - unfold read_file. rewrite lookup_node_cons by (by destruct wd). simpl.
    by rewrite lookup_insert_eq.
Qed.


Lemma spawn_trace (env : Env) (c : cmd) (w : world) (r : result unit) (w' : world) :
  spawn env c w = (r, w') -> w_spawned w' = w_spawned w ++ [c].
Proof. unfold spawn. destruct (run_cmd env c (w_fs w)) as [[|] fs']; by intros [= _ <-]. Qed.

Lemma keeps_open_file (p : path) : keeps (open_file p).
Proof. intros w r w' H. by apply open_file_same in H as ->. Qed.

Lemma keeps_read_file (p : path) : keeps (read_file p).
Proof. intros w r w' H. by apply read_file_same in H as [-> _]. Qed.

Lemma keeps_remove_file (p : path) : keeps (remove_file p).
Proof. unfold remove_file. intros w r w' H. repeat case_match; by simplify_eq. Qed.

Lemma keeps_compress_file (env : Env) (p : path) : keeps (compress_file env p).
Proof.
  unfold compress_file.
  apply keeps_bind; [apply keeps_context, keeps_open_file | intros _].
  apply keeps_bind; [apply keeps_context, keeps_create_file | intros _].
  apply keeps_bind; [apply keeps_read_file | intros plain].
  apply keeps_bind; [apply keeps_write_file | intros _].
  apply keeps_bind; [apply keeps_context, keeps_remove_file | intros _].
  apply keeps_ret.
Qed.

Lemma scan_collectables_same (env : Env) (id : N) (host : Uri) (ad : path)
    (w : world) (r : result (list Collectable)) (w' : world) :
  scan_collectables env id host ad w = (r, w') -> w' = w.
Proof.
  unfold scan_collectables, bind, context, read_dir.
  destruct (lookup_node w ad) as [[|c]|]; [|intros [= <- <-]; done..].
  destruct (faulty w OpReadDir ad); [intros [= <- <-]; done|].
  destruct (scan_loop _ _ _ _ _ [] w) as [[cs|e] w1] eqn:Hl; intros [= <- <-].
  - by apply scan_loop_result in Hl as [-> _].
  - by apply scan_loop_err_readonly in Hl.
Qed.

(** The commands of a successful [prepare]. *)
Lemma prepare_trace (env : Env) (st : State) (req : PackageBuild) (w : world)
    (ctx : Ctx) (w1 : world) :
  prepare env st req w = (Ok ctx, w1) ->
  exists c1, (c1 = GitRemoteUpdate (mirror_dir ctx) \/ c1 = GitMirror (ctx_uri ctx) (mirror_dir ctx)) /\
    w_spawned w1 = w_spawned w ++
      [c1; GitCheckoutWorktree (mirror_dir ctx) (worktree_dir ctx) (commit_ref req)].
Proof.
  unfold prepare. intros H.
  apply bind_ok in H as (um & wa & Hr & H). apply keeps_resolve in Hr.
  apply bind_ok in H as (ctx' & wb & Hd & H). apply keeps_prepare_dirs in Hd.
  apply bind_ok in H as ([] & wc & Hs & H).
  apply bind_ok in H as ([] & wd & Hc & H).
  apply bind_ok in H as ([] & we & Hb & H). unfold ret in H. simplify_eq.
  apply context_ok, keeps_create_boulder_config in Hb.
  apply context_ok, spawn_trace in Hc.
  unfold sync_mirror, bind, get in Hs.
  exists (if exists_path wb (mirror_dir ctx) then GitRemoteUpdate (mirror_dir ctx)
          else GitMirror (ctx_uri ctx) (mirror_dir ctx)).
  split; [destruct (exists_path wb _); auto|].
  rewrite Hb, Hc.
  destruct (exists_path wb _); apply spawn_trace in Hs; rewrite Hs, Hd, Hr; simpl;
    by rewrite <- app_assoc.
Qed.

Lemma build_succeeded_stages (env : Env) (st : State) (cfg : Config) (req : PackageBuild)
    (w : world) (cs : list Collectable) :
  (build env st cfg req w).1 = BuildSucceeded (build_id req) cs ->
  exists ctx w1 w2 w3 w4,
    prepare env st req w = (Ok ctx, w1) /\
    build_recipe env (work_dir ctx) (asset_dir ctx) (worktree_dir ctx)
      (relative_path req) (log_file ctx) w1 = (Ok tt, w2) /\
    compress_file env (log_file ctx) w2 = (Ok tt, w3) /\
    scan_collectables env (build_id req) (host_address cfg) (asset_dir ctx) w3 = (Ok cs, w4) /\
    git_remove_worktree env (mirror_dir ctx) (worktree_dir ctx) w4
      = (Ok tt, (build env st cfg req w).2).
Proof.
  unfold build. destruct (run env st cfg req w) as [r w'] eqn:Hrun. simpl.
  destruct r as [[[e|] cs']|e]; simpl; intros Hm; simplify_eq.
  unfold run in Hrun. apply bind_ok in Hrun as (ctx & w1 & Hp & H).
  apply bind_ok in H as (o & w2 & Hb & H).
  unfold catch_err in Hb.
  destruct (build_recipe _ _ _ _ _ _ w1) as [[[]|e] w2'] eqn:Hbr; simplify_eq;
    unfold finish in H; peel H; unfold ret in H; simplify_eq.
  apply context_ok in Hs. apply context_ok in Hs0. apply context_ok in Hs1.
  destruct x, x3. by exists ctx, w1, w2, x0, x2.
Qed.

(** X13: [BuildSucceeded] is sent only when every stage succeeded. *)
Theorem build_succeeded_chain (env : Env) (st : State) (cfg : Config) (req : PackageBuild)
    (w : world) (cs : list Collectable) :
  (build env st cfg req w).1 = BuildSucceeded (build_id req) cs ->
  exists ctx w1 w2 w3 w4,
    prepare env st req w = (Ok ctx, w1) /\
    build_recipe env (work_dir ctx) (asset_dir ctx) (worktree_dir ctx)
      (relative_path req) (log_file ctx) w1 = (Ok tt, w2) /\
    compress_file env (log_file ctx) w2 = (Ok tt, w3) /\
    scan_collectables env (build_id req) (host_address cfg) (asset_dir ctx) w3 = (Ok cs, w4) /\
    git_remove_worktree env (mirror_dir ctx) (worktree_dir ctx) w4
      = (Ok tt, (build env st cfg req w).2).
Proof. apply build_succeeded_stages. Qed.

(** X14: the commands of a successful build, in order. *)
Theorem build_succeeded_commands (env : Env) (st : State) (cfg : Config) (req : PackageBuild)
    (w : world) (cs : list Collectable) :
  (build env st cfg req w).1 = BuildSucceeded (build_id req) cs ->
  exists ctx w1 c1,
    prepare env st req w = (Ok ctx, w1) /\
    (c1 = GitRemoteUpdate (mirror_dir ctx) \/ c1 = GitMirror (ctx_uri ctx) (mirror_dir ctx)) /\
    w_spawned (build env st cfg req w).2 = w_spawned w ++
      [c1; GitCheckoutWorktree (mirror_dir ctx) (worktree_dir ctx) (commit_ref req);
       Sudo (boulder_args (work_dir ctx) (asset_dir ctx) (relative_path req))
         (worktree_dir ctx) (log_file ctx);
       GitRemoveWorktree (mirror_dir ctx) (worktree_dir ctx)].
Proof.
  intros Hm. apply build_succeeded_stages in Hm as (ctx & w1 & w2 & w3 & w4 & Hp & Hb & Hc & Hs & Hr).
  destruct (prepare_trace _ _ _ _ _ _ Hp) as (c1 & Hc1 & Ht).
  exists ctx, w1, c1. split; [done|]. split; [done|].
  apply spawn_trace in Hr. apply scan_collectables_same in Hs. subst w4.
  apply keeps_compress_file in Hc.
  unfold build_recipe in Hb. apply bind_ok in Hb as ([] & wl & Hl & Hb).
  apply context_ok, keeps_create_file in Hl.
  apply bind_ok in Hb as ([] & wc & Hcl & Hb).
  unfold try_clone in Hcl. destruct (faulty wl OpClone _); simplify_eq.
  apply bind_ok in Hb as ([] & ws & Hsp & Hb). unfold ret in Hb. simplify_eq.
  apply spawn_trace in Hsp.
  rewrite Hr, Hc, Hsp, Hl, Ht. by rewrite <- !app_assoc.
Qed.

(** X18: the stored [i64] is in range and reads back as the [u64]. *)
Theorem u64_as_i64_roundtrip (p : N) :
  (p < 2 ^ 64)%N ->
  (- 2 ^ 63 <= u64_as_i64 p < 2 ^ 63)%Z /\ (u64_as_i64 p mod 2 ^ 64 = Z.of_N p)%Z.
Proof.
  intros Hp. unfold u64_as_i64.
  assert (Z.of_N p mod 2 ^ 64 = Z.of_N p)%Z as ->.
  { apply Z.mod_small. split; [lia|]. change (2 ^ 64)%Z with (Z.of_N (2 ^ 64)). lia. }
  assert (Z.of_N p < 2 ^ 64)%Z by (change (2 ^ 64)%Z with (Z.of_N (2 ^ 64)); lia).
  destruct (Z.ltb_spec (Z.of_N p) (2 ^ 63)).
  - split; [lia|]. apply Z.mod_small. lia.
  - split; [lia|]. rewrite <- (Z.mod_add _ 1) by lia.
    replace (Z.of_N p - 2 ^ 64 + 1 * 2 ^ 64)%Z with (Z.of_N p) by lia.
    apply Z.mod_small. lia.
Qed.

(** X19: the order of the stored priorities. *)
Theorem u64_as_i64_order (p q : N) :
  ((p <= q < 2 ^ 63)%N -> (u64_as_i64 p <= u64_as_i64 q)%Z) /\
  ((2 ^ 63 <= p <= q)%N -> (q < 2 ^ 64)%N -> (u64_as_i64 p <= u64_as_i64 q)%Z) /\
  ((p < 2 ^ 63 <= q)%N -> (q < 2 ^ 64)%N -> (u64_as_i64 q < 0 <= u64_as_i64 p)%Z).
Proof.
  assert (Hm : forall x : N, (x < 2 ^ 64)%N -> (Z.of_N x mod 2 ^ 64 = Z.of_N x)%Z).
  { intros x Hx. apply Z.mod_small. split; [lia|]. change (2 ^ 64)%Z with (Z.of_N (2 ^ 64)). lia. }
  assert (Hlt : forall x : N, (x < 2 ^ 63)%N -> (Z.of_N x <? 2 ^ 63)%Z = true).
  { intros x Hx. apply Z.ltb_lt. change (2 ^ 63)%Z with (Z.of_N (2 ^ 63)). lia. }
  assert (Hge : forall x : N, (2 ^ 63 <= x)%N -> (Z.of_N x <? 2 ^ 63)%Z = false).
  { intros x Hx. apply Z.ltb_ge. change (2 ^ 63)%Z with (Z.of_N (2 ^ 63)). lia. }
  unfold u64_as_i64. split; [|split].
  - intros Hpq. rewrite !Hm by lia. rewrite !Hlt by lia. lia.
  - intros Hpq Hq. rewrite !Hm by lia. rewrite !Hge by lia. lia.
  - intros Hpq Hq. rewrite !Hm by lia. rewrite (Hlt p), (Hge q) by lia.
    change (2 ^ 64)%Z with (Z.of_N (2 ^ 64)). lia.
Qed.

(* ------------------------------------------------------------------ *)
(** ** Instances of the further properties *)

(** X1 on build 7: the scan leaves the disk alone and yields one collectable
    per entry of the asset directory (the compressed log and the package). *)
Lemma scan_collectables_entries_witness :
  Scenario.bf_w4 = Scenario.bf_w3 /\ length Scenario.bf_cs = 2.
Proof.
  destruct (scan_collectables_entries Scenario.bf_env 7 (host_address Scenario.config)
              (asset_dir Scenario.bf_ctx) Scenario.bf_w3 Scenario.bf_scan.1 Scenario.bf_scan.2
              ltac:(vm_compute; reflexivity)) as [Hw Hf].
  split; [exact Hw|].
  rewrite <- (Forall2_length _ _ _ (Hf Scenario.bf_cs ltac:(vm_compute; reflexivity))).
  vm_compute. reflexivity.
Defined.

(** X2 on [world_subdir]: the subdirectory [sub] makes the scan fail. *)
Lemma scan_collectables_subdir_fails_witness :
  exists e, scan_collectables Scenario.bf_env 7 (host_address Scenario.config)
              ["srv"; "assets"; "7"] Scenario.world_subdir = (Err e, Scenario.world_subdir).
Proof.
  exact (scan_collectables_subdir_fails Scenario.bf_env 7 (host_address Scenario.config)
           ["srv"; "assets"; "7"] "sub" Scenario.world_subdir
           ltac:(vm_compute; reflexivity) ltac:(vm_compute; reflexivity)).
Defined.

(** X3 on build 7: the log is replaced by its compressed copy. *)
Lemma compress_file_moves_witness :
  w_fs Scenario.bf_w3 !! log_file Scenario.bf_ctx = None /\
  w_fs Scenario.bf_w3 !! gz_path (log_file Scenario.bf_ctx) = Some (File "gz:output").
Proof.
  destruct (compress_file_moves Scenario.bf_env (log_file Scenario.bf_ctx) "output"
              Scenario.bf_w2 tt Scenario.bf_w3
              ltac:(vm_compute; reflexivity) ltac:(vm_compute; reflexivity))
    as (H1 & H2 & _).
  split; [exact H1|exact H2].
Defined.

(** X4 on [world_gz_fault]: the compressed log cannot be created, the plain
    log stays. *)
Lemma compress_file_failure_keeps_log_witness :
  w_fs Scenario.gz_w3 !! log_file Scenario.gz_ctx = Some (File "output").
Proof.
  exact (compress_file_failure_keeps_log Scenario.gz_env (log_file Scenario.gz_ctx) "output"
           Scenario.gz_w2 Scenario.gz_e Scenario.gz_w3
           ltac:(vm_compute; reflexivity) ltac:(vm_compute; reflexivity)).
Defined.

(** X5 on an empty disk: [/a] is a directory after [ensure_dir_exists /a/b]. *)
Lemma ensure_dir_exists_adds_dirs_witness :
  is_dir (ensure_dir_exists ["a"; "b"] Scenario.world0).2 ["a"] = true.
Proof.
  destruct (ensure_dir_exists_adds_dirs ["a"; "b"] Scenario.world0
              (ensure_dir_exists ["a"; "b"] Scenario.world0).1
              (ensure_dir_exists ["a"; "b"] Scenario.world0).2
              ltac:(vm_compute; reflexivity)) as (_ & _ & H).
  exact (H ltac:(vm_compute; reflexivity) ["a"]
           ltac:(apply list_elem_of_In; vm_compute; left; reflexivity)).
Defined.

(** X6 on [world_file]: the file [/a] is in the way of [/a/b]. *)
Lemma ensure_dir_exists_file_in_way_witness :
  exists e, (ensure_dir_exists ["a"; "b"] Scenario.world_file).1 = Err e.
Proof.
  exact (ensure_dir_exists_file_in_way ["a"; "b"] ["a"] "x" Scenario.world_file
           ltac:(apply list_elem_of_In; vm_compute; left; reflexivity)
           ltac:(vm_compute; reflexivity)).
Defined.

(** X7 on [world_dir]: [/a] exists, nothing is done. *)
Lemma ensure_dir_exists_existing_witness :
  ensure_dir_exists ["a"] Scenario.world_dir = (Ok tt, Scenario.world_dir).
Proof.
  refine (ensure_dir_exists_existing ["a"] Scenario.world_dir _
            ltac:(vm_compute; reflexivity)).
  intros q n Hq _. simpl in Hq.
  apply lookup_insert_Some in Hq as [[<- _]|[_ Hq]].
  - reflexivity.
  - rewrite lookup_empty in Hq. discriminate.
Defined.

(** X8 on [world_subdir]: [/srv] is outside [/srv/assets/7]. *)
Lemma recreate_dir_outside_witness :
  w_fs (recreate_dir ["srv"; "assets"; "7"] Scenario.world_subdir).2 !! ["srv"]
  = w_fs Scenario.world_subdir !! ["srv"] \/
  (w_fs Scenario.world_subdir !! ["srv"] = None /\
   w_fs (recreate_dir ["srv"; "assets"; "7"] Scenario.world_subdir).2 !! ["srv"] = Some Dir /\
   ["srv"] ∈ ancestors ["srv"; "assets"; "7"]).
Proof.
  exact (recreate_dir_outside ["srv"; "assets"; "7"] Scenario.world_subdir
           (recreate_dir ["srv"; "assets"; "7"] Scenario.world_subdir).1
           (recreate_dir ["srv"; "assets"; "7"] Scenario.world_subdir).2
           ltac:(vm_compute; reflexivity) ["srv"] ltac:(vm_compute; reflexivity)).
Defined.

(** X9 on [world_file]: [/a] is a regular file. *)
Lemma recreate_dir_regular_file_witness :
  recreate_dir ["a"] Scenario.world_file = (Err ["Not a directory"], Scenario.world_file).
Proof.
  exact (recreate_dir_regular_file ["a"] "x" Scenario.world_file
           ltac:(discriminate) ltac:(vm_compute; reflexivity)).
Defined.

(** X11 on an empty disk, with the remotes of build 7. *)
Lemma create_boulder_config_writes_witness :
  read_file (["w"] ++ ["etc"; "boulder"; "profile.d"; "avalanche.yaml"])
    (create_boulder_config ["w"] (remotes Scenario.req7) Scenario.world0).2
  = (Ok (render_config (remotes Scenario.req7)),
     (create_boulder_config ["w"] (remotes Scenario.req7) Scenario.world0).2).
Proof.
  exact (proj2 (create_boulder_config_writes ["w"] (remotes Scenario.req7) Scenario.world0 tt
                  (create_boulder_config ["w"] (remotes Scenario.req7) Scenario.world0).2
                  ltac:(vm_compute; reflexivity))).
Defined.

(** X13 on build 7 when every command succeeds. *)
Lemma build_succeeded_chain_witness :
  exists ctx w1 w2 w3 w4,
    prepare Scenario.ok_env Scenario.state Scenario.req7 Scenario.world0 = (Ok ctx, w1) /\
    build_recipe Scenario.ok_env (work_dir ctx) (asset_dir ctx) (worktree_dir ctx)
      (relative_path Scenario.req7) (log_file ctx) w1 = (Ok tt, w2) /\
    compress_file Scenario.ok_env (log_file ctx) w2 = (Ok tt, w3) /\
    scan_collectables Scenario.ok_env 7 (host_address Scenario.config) (asset_dir ctx) w3
      = (Ok Scenario.ok_cs, w4) /\
    git_remove_worktree Scenario.ok_env (mirror_dir ctx) (worktree_dir ctx) w4
      = (Ok tt, Scenario.ok_build.2).
Proof.
  exact (build_succeeded_chain Scenario.ok_env Scenario.state Scenario.config Scenario.req7
           Scenario.world0 Scenario.ok_cs ltac:(vm_compute; reflexivity)).
Defined.

(** X14 on build 7 when every command succeeds. *)
Lemma build_succeeded_commands_witness :
  exists ctx w1 c1,
    prepare Scenario.ok_env Scenario.state Scenario.req7 Scenario.world0 = (Ok ctx, w1) /\
    (c1 = GitRemoteUpdate (mirror_dir ctx) \/ c1 = GitMirror (ctx_uri ctx) (mirror_dir ctx)) /\
    w_spawned Scenario.ok_build.2 =
      [c1; GitCheckoutWorktree (mirror_dir ctx) (worktree_dir ctx) "abc123";
       Sudo (boulder_args (work_dir ctx) (asset_dir ctx) "recipe/stone.yaml")
         (worktree_dir ctx) (log_file ctx);
       GitRemoveWorktree (mirror_dir ctx) (worktree_dir ctx)].
Proof.
  exact (build_succeeded_commands Scenario.ok_env Scenario.state Scenario.config Scenario.req7
           Scenario.world0 Scenario.ok_cs ltac:(vm_compute; reflexivity)).
Defined.

(** X18 on the largest [u64]: it is stored as [-1]. *)
Lemma u64_as_i64_roundtrip_witness :
  (- 2 ^ 63 <= u64_as_i64 (2 ^ 64 - 1) < 2 ^ 63)%Z /\
  (u64_as_i64 (2 ^ 64 - 1) mod 2 ^ 64 = Z.of_N (2 ^ 64 - 1))%Z.
Proof.
  exact (u64_as_i64_roundtrip (2 ^ 64 - 1) ltac:(vm_compute; reflexivity)).
Defined.
